(** * HMCTS task form: the deadline input synchronizer of [Frontend/src/App.tsx]

  The React component [App] keeps one combined deadline string
  ([form.deadline]), two fragments ([deadlineDate], [deadlineTime]), a
  calendar cursor ([calendarDate]) and a staged hour/minute selection.  The
  event handlers and the two synchronisation effects are embedded here as
  pure functions on a [State] record.

  The handlers lean on the JavaScript [Date] object, so the first module
  embeds the part of ECMAScript's Date arithmetic they call (ECMA-262,
  section "Date Objects"): time values are integral milliseconds since the
  epoch in [Z], [NaN] is [None].  The host's time zone is a constant offset
  [LocalTZA] (milliseconds east of UTC); daylight-saving transitions are not
  modelled. *)

From Stdlib Require Import ZArith Lia Bool List String Ascii DecimalString.
Import ListNotations.
Local Open Scope string_scope.
Local Open Scope Z_scope.

(* ================================================================== *)
(** ** JavaScript strings and numbers as the component uses them       *)
(* ================================================================== *)

Module JS.

(** Truthiness of a string: [if (s)] holds for every non-empty string. *)
Definition truthy (s : string) : bool :=
  match s with EmptyString => false | String _ _ => true end.

(** [a || b] on strings. *)
Definition or_else (a b : string) : string := if truthy a then a else b.

Definition is_digit (c : ascii) : bool :=
  let n := N_of_ascii c in (48 <=? n)%N && (n <=? 57)%N.

Definition digit_val (c : ascii) : Z := Z.of_N (N_of_ascii c) - 48.

Definition digit_char (n : Z) : ascii := ascii_of_N (Z.to_N (48 + n mod 10)).

(** [w] decimal digits of a non-negative integer, most significant first:
    the fixed-width fields of the date-time string format. *)
Fixpoint digits_fixed (w : nat) (n : Z) : string :=
  match w with
  | O => ""
  | S w' => digits_fixed w' (n / 10) ++ String (digit_char n) ""
  end.

(** [Number.prototype.toString()] on an integral number, every digit
    printed: numbers of 10^21 and more, which JavaScript prints in exponent
    form, are outside what the component passes. *)
Definition toString (n : Z) : string := NilZero.string_of_int (Z.to_int n).

Fixpoint repeat_char (c : ascii) (n : nat) : string :=
  match n with O => "" | S n' => String c (repeat_char c n') end.

(** [s.padStart(w, c)] for a one-character filler. *)
Definition padStart (w : nat) (c : ascii) (s : string) : string :=
  repeat_char c (w - String.length s) ++ s.

(** [s.slice(0, n)]. *)
Definition slice0 (n : nat) (s : string) : string := String.substring 0 n s.

(** [s.split(sep)] for a one-character separator: at least one piece. *)
Fixpoint split (sep : ascii) (s : string) : list string :=
  match s with
  | EmptyString => [""]
  | String c rest =>
      if Ascii.eqb c sep then "" :: split sep rest
      else match split sep rest with
           | [] => [String c ""]
           | p :: ps => String c p :: ps
           end
  end.

(** [s.split(sep)[0]]. *)
Definition split_head (sep : ascii) (s : string) : string :=
  match split sep s with [] => "" | p :: _ => p end.

Definition all_digits (s : string) : bool :=
  forallb is_digit (list_ascii_of_string s).

Definition digits_value (s : string) : Z :=
  fold_left (fun acc c => 10 * acc + digit_val c) (list_ascii_of_string s) 0.

(** [Number(s)] on the strings an [HH:mm] value splits into: the empty
    string is [0], a run of decimal digits is its value.  [None] is [NaN].
    The other numeric literals [Number] accepts (signs, fractions,
    exponents, radix prefixes, surrounding white space) do not occur in the
    pieces of a time field and are not modelled: they read as [NaN] here. *)
Definition Number (s : string) : option Z :=
  if all_digits s then Some (digits_value s) else None.

(** [Number(undefined)] is [NaN]: a missing array element. *)
Definition Number_at (l : list string) (i : nat) : option Z :=
  match nth_error l i with Some s => Number s | None => None end.

(** [c] does not occur in [s]. *)
Fixpoint no_char (c : ascii) (s : string) : bool :=
  match s with
  | EmptyString => true
  | String x r => negb (Ascii.eqb x c) && no_char c r
  end.

End JS.

(* ================================================================== *)
(** ** ECMAScript Date arithmetic                                      *)
(* ================================================================== *)

Module JSDate.

Definition msPerSecond : Z := 1000.
Definition msPerMinute : Z := 60000.
Definition msPerHour : Z := 3600000.
Definition msPerDay : Z := 86400000.

(** Largest magnitude of a time value. *)
Definition maxTime : Z := 8640000000000000.

Definition Day (t : Z) : Z := t / msPerDay.
Definition TimeWithinDay (t : Z) : Z := t mod msPerDay.

Definition DaysInYear (y : Z) : Z :=
  if negb (y mod 4 =? 0) then 365
  else if negb (y mod 100 =? 0) then 366
  else if negb (y mod 400 =? 0) then 365
  else 366.

Definition DayFromYear (y : Z) : Z :=
  365 * (y - 1970) + (y - 1969) / 4 - (y - 1901) / 100 + (y - 1601) / 400.

Definition TimeFromYear (y : Z) : Z := msPerDay * DayFromYear y.

(** The largest [y] with [DayFromYear y <= d]: the estimate from the mean
    year length is off by at most one. *)
Definition YearFromDay (d : Z) : Z :=
  let y := 1970 + (400 * d) / 146097 in
  if d <? DayFromYear y then y - 1
  else if DayFromYear (y + 1) <=? d then y + 1
  else y.

Definition YearFromTime (t : Z) : Z := YearFromDay (Day t).

Definition InLeapYear (t : Z) : Z :=
  if DaysInYear (YearFromTime t) =? 366 then 1 else 0.

Definition DayWithinYear (t : Z) : Z := Day t - DayFromYear (YearFromTime t).

Definition MonthFromTime (t : Z) : Z :=
  let d := DayWithinYear t in
  let l := InLeapYear t in
  if d <? 31 then 0
  else if d <? 59 + l then 1
  else if d <? 90 + l then 2
  else if d <? 120 + l then 3
  else if d <? 151 + l then 4
  else if d <? 181 + l then 5
  else if d <? 212 + l then 6
  else if d <? 243 + l then 7
  else if d <? 273 + l then 8
  else if d <? 304 + l then 9
  else if d <? 334 + l then 10
  else 11.

Definition DateFromTime (t : Z) : Z :=
  let d := DayWithinYear t in
  let l := InLeapYear t in
  match MonthFromTime t with
  | 0 => d + 1
  | 1 => d - 30
  | 2 => d - 58 - l
  | 3 => d - 89 - l
  | 4 => d - 119 - l
  | 5 => d - 150 - l
  | 6 => d - 180 - l
  | 7 => d - 211 - l
  | 8 => d - 242 - l
  | 9 => d - 272 - l
  | 10 => d - 303 - l
  | _ => d - 333 - l
  end.

Definition WeekDay (t : Z) : Z := (Day t + 4) mod 7.

Definition HourFromTime (t : Z) : Z := (t / msPerHour) mod 24.
Definition MinFromTime (t : Z) : Z := (t / msPerMinute) mod 60.
Definition SecFromTime (t : Z) : Z := (t / msPerSecond) mod 60.
Definition msFromTime (t : Z) : Z := t mod msPerSecond.

Definition MakeTime (hour min sec ms : Z) : Z :=
  hour * msPerHour + min * msPerMinute + sec * msPerSecond + ms.

(** Days from 1 January to the first of month [mn] (0-based) of year [y]. *)
Definition DaysBeforeMonth (y mn : Z) : Z :=
  let l := if DaysInYear y =? 366 then 1 else 0 in
  match mn with
  | 0 => 0
  | 1 => 31
  | 2 => 59 + l
  | 3 => 90 + l
  | 4 => 120 + l
  | 5 => 151 + l
  | 6 => 181 + l
  | 7 => 212 + l
  | 8 => 243 + l
  | 9 => 273 + l
  | 10 => 304 + l
  | _ => 334 + l
  end.

(** [MakeDay]: the day number of the first of the (normalised) month plus
    [date - 1]; [NaN] when the first of that month is no time value. *)
Definition MakeDay (year month date : Z) : option Z :=
  let ym := year + month / 12 in
  let mn := month mod 12 in
  let first := DayFromYear ym + DaysBeforeMonth ym mn in
  if Z.abs (first * msPerDay) <=? maxTime then Some (first + date - 1)
  else None.

Definition MakeDate (day : option Z) (time : Z) : option Z :=
  match day with Some d => Some (d * msPerDay + time) | None => None end.

Definition TimeClip (time : option Z) : option Z :=
  match time with
  | Some t => if Z.abs t <=? maxTime then Some t else None
  | None => None
  end.

(** Day count of month [mn] (0-based) of year [y]. *)
Definition DaysInMonth (y mn : Z) : Z :=
  match mn with
  | 1 => if DaysInYear y =? 366 then 29 else 28
  | 3 | 5 | 8 | 10 => 30
  | _ => 31
  end.

(** *** The host environment

    [LocalTZA] is the zone's offset from UTC in milliseconds, [now] the
    time value [new Date()] reads, [legacy_parse] the implementation-defined
    fallback of [Date.parse] for every string outside the date-time string
    format embedded below.  The offset is one constant: a host is a zone
    without clock changes, or a stretch of time between two of them.
    ECMAScript takes the offset in force at each instant and reads a local
    time that a clock change skips with the offset before it; every
    statement below that relates two instants is about a constant offset. *)
Record Host := mkHost {
  LocalTZA : Z;
  now : Z;
  legacy_parse : string -> option Z
}.

(** A [Date] object is its time value; [None] is an Invalid Date. *)
Definition Date := option Z.

Section WithHost.
Variable h : Host.

Definition LocalTime (t : Z) : Z := t + LocalTZA h.
Definition UTC (t : Z) : Z := t - LocalTZA h.

(** [new Date(year, month, date)]: local midnight of the given day; a
    year in 0..99 is read as 1900 + year. *)
Definition new_Date_ymd (year month date : Z) : Date :=
  let yr := if (0 <=? year) && (year <=? 99) then 1900 + year else year in
  TimeClip (option_map UTC (MakeDate (MakeDay yr month date) (MakeTime 0 0 0 0))).

(** [new Date()]. *)
Definition new_Date_now : Date := Some (now h).

(** Local-time getters on a valid time value. *)
Definition getFullYear (tv : Z) : Z := YearFromTime (LocalTime tv).
Definition getMonth (tv : Z) : Z := MonthFromTime (LocalTime tv).
Definition getDate (tv : Z) : Z := DateFromTime (LocalTime tv).
Definition getDay (tv : Z) : Z := WeekDay (LocalTime tv).
Definition getHours (tv : Z) : Z := HourFromTime (LocalTime tv).
Definition getMinutes (tv : Z) : Z := MinFromTime (LocalTime tv).

(** [d.setMonth(m)] on a valid time value: the local year, the new month,
    the same day of the month and time of day; a day the month does not
    have carries into the following month. *)
Definition setMonth (tv : Z) (m : Z) : Date :=
  let t := LocalTime tv in
  TimeClip (option_map UTC
    (MakeDate (MakeDay (YearFromTime t) m (DateFromTime t)) (TimeWithinDay t))).

Definition year_string (y : Z) : string :=
  if (0 <=? y) && (y <=? 9999) then JS.digits_fixed 4 y
  else (if y <? 0 then "-" else "+") ++ JS.digits_fixed 6 (Z.abs y).

(** [d.toISOString()] on a valid time value: the UTC fields. *)
Definition toISOString (tv : Z) : string :=
  year_string (YearFromTime tv) ++ "-" ++
  JS.digits_fixed 2 (MonthFromTime tv + 1) ++ "-" ++
  JS.digits_fixed 2 (DateFromTime tv) ++ "T" ++
  JS.digits_fixed 2 (HourFromTime tv) ++ ":" ++
  JS.digits_fixed 2 (MinFromTime tv) ++ ":" ++
  JS.digits_fixed 2 (SecFromTime tv) ++ "." ++
  JS.digits_fixed 3 (msFromTime tv) ++ "Z".

(** [d.toTimeString()] on a valid time value: the local time of day and
    the zone offset (the implementation-defined zone name that may follow
    is left out). *)
Definition toTimeString (tv : Z) : string :=
  let t := LocalTime tv in
  let off := Z.abs (LocalTZA h) / msPerMinute in
  JS.digits_fixed 2 (HourFromTime t) ++ ":" ++
  JS.digits_fixed 2 (MinFromTime t) ++ ":" ++
  JS.digits_fixed 2 (SecFromTime t) ++ " GMT" ++
  (if LocalTZA h <? 0 then "-" else "+") ++
  JS.digits_fixed 2 (off / 60) ++ JS.digits_fixed 2 (off mod 60).

(** *** [Date.parse] on the date-time string format *)

Definition take_digits (n : nat) (l : list ascii) : option (Z * list ascii) :=
  let d := firstn n l in
  if (Nat.eqb (List.length d) n) && forallb JS.is_digit d
  then Some (fold_left (fun acc c => 10 * acc + JS.digit_val c) d 0, skipn n l)
  else None.

Definition expect (c : ascii) (l : list ascii) : option (list ascii) :=
  match l with
  | x :: r => if Ascii.eqb x c then Some r else None
  | [] => None
  end.

(** The fields of [YYYY-MM-DDTHH:mm] or [YYYY-MM-DDTHH:mm:ss]. *)
Definition parse_fields (s : string) : option (Z * Z * Z * Z * Z * Z) :=
  match take_digits 4 (list_ascii_of_string s) with
  | Some (y, l1) =>
  match expect "-" l1 with Some l2 =>
  match take_digits 2 l2 with Some (mo, l3) =>
  match expect "-" l3 with Some l4 =>
  match take_digits 2 l4 with Some (d, l5) =>
  match expect "T" l5 with Some l6 =>
  match take_digits 2 l6 with Some (hh, l7) =>
  match expect ":" l7 with Some l8 =>
  match take_digits 2 l8 with Some (mi, l9) =>
    match l9 with
    | [] => Some (y, mo, d, hh, mi, 0)
    | _ =>
      match expect ":" l9 with Some l10 =>
      match take_digits 2 l10 with
      | Some (ss, []) => Some (y, mo, d, hh, mi, ss)
      | _ => None
      end | None => None end
    end
  | None => None end | None => None end | None => None end
  | None => None end | None => None end | None => None end
  | None => None end | None => None end
  | None => None
  end.

Definition fields_in_range (f : Z * Z * Z * Z * Z * Z) : bool :=
  let '(y, mo, d, hh, mi, ss) := f in
  (1 <=? mo) && (mo <=? 12) && (1 <=? d) && (d <=? DaysInMonth y (mo - 1))
  && (hh <=? 23) && (mi <=? 59) && (ss <=? 59).

(** [new Date(s)] / [Date.parse(s)]: a date-time form without a zone
    designator whose fields name a real calendar day and time of day is
    read as local time; every other string is left to the host. *)
Definition Date_parse (s : string) : Date :=
  match parse_fields s with
  | Some (y, mo, d, hh, mi, ss) =>
      if fields_in_range (y, mo, d, hh, mi, ss)
      then TimeClip (option_map UTC
             (MakeDate (MakeDay y (mo - 1) d) (MakeTime hh mi ss 0)))
      else TimeClip (legacy_parse h s)
  | None => TimeClip (legacy_parse h s)
  end.

End WithHost.

(** The time value [t] falls on day [date] of month [mn] (0-based) of year
    [y]. *)
Definition civil (y mn date : Z) (t : Z) : Prop :=
  YearFromTime t = y /\ MonthFromTime t = mn /\ DateFromTime t = date.

End JSDate.

(* ================================================================== *)
(** ** The [App] component: state, event handlers, effects             *)
(* ================================================================== *)

Module TaskResponse.
(** The record the API returns. *)
Record t := mk {
  id : string;
  title : string;
  description : option string;
  status : string;
  deadline : string;
  created_at : string
}.
End TaskResponse.

Module App.
Import JS JSDate.

(** The draft the form posts. *)
Record TaskCreate := mkTaskCreate {
  title : string;
  description : string;
  status : string;
  deadline : string
}.

(** Every [useState] cell of the component. *)
Record State := mkState {
  form : TaskCreate;
  deadlineDate : string;
  deadlineTime : string;
  showModal : bool;
  createdTask : option TaskResponse.t;
  showCalendar : bool;
  showTimePicker : bool;
  calendarDate : Date;
  selectedHour : Z;
  selectedMinute : Z
}.

Definition emptyForm : TaskCreate := mkTaskCreate "" "" "pending" "".

(** The state of the first render. *)
Definition initial (h : Host) : State :=
  mkState emptyForm "" "" false None false false (new_Date_now h) 12 0.

(** *** State setters *)

Definition setForm (f : TaskCreate) (s : State) : State :=
  mkState f (deadlineDate s) (deadlineTime s) (showModal s) (createdTask s)
          (showCalendar s) (showTimePicker s) (calendarDate s)
          (selectedHour s) (selectedMinute s).
Definition setDeadlineDate (v : string) (s : State) : State :=
  mkState (form s) v (deadlineTime s) (showModal s) (createdTask s)
          (showCalendar s) (showTimePicker s) (calendarDate s)
          (selectedHour s) (selectedMinute s).
Definition setDeadlineTime (v : string) (s : State) : State :=
  mkState (form s) (deadlineDate s) v (showModal s) (createdTask s)
          (showCalendar s) (showTimePicker s) (calendarDate s)
          (selectedHour s) (selectedMinute s).
Definition setShowModal (v : bool) (s : State) : State :=
  mkState (form s) (deadlineDate s) (deadlineTime s) v (createdTask s)
          (showCalendar s) (showTimePicker s) (calendarDate s)
          (selectedHour s) (selectedMinute s).
Definition setCreatedTask (v : option TaskResponse.t) (s : State) : State :=
  mkState (form s) (deadlineDate s) (deadlineTime s) (showModal s) v
          (showCalendar s) (showTimePicker s) (calendarDate s)
          (selectedHour s) (selectedMinute s).
Definition setShowCalendar (v : bool) (s : State) : State :=
  mkState (form s) (deadlineDate s) (deadlineTime s) (showModal s)
          (createdTask s) v (showTimePicker s) (calendarDate s)
          (selectedHour s) (selectedMinute s).
Definition setShowTimePicker (v : bool) (s : State) : State :=
  mkState (form s) (deadlineDate s) (deadlineTime s) (showModal s)
          (createdTask s) (showCalendar s) v (calendarDate s)
          (selectedHour s) (selectedMinute s).
Definition setCalendarDate (v : Date) (s : State) : State :=
  mkState (form s) (deadlineDate s) (deadlineTime s) (showModal s)
          (createdTask s) (showCalendar s) (showTimePicker s) v
          (selectedHour s) (selectedMinute s).
Definition setSelectedHour (v : Z) (s : State) : State :=
  mkState (form s) (deadlineDate s) (deadlineTime s) (showModal s)
          (createdTask s) (showCalendar s) (showTimePicker s)
          (calendarDate s) v (selectedMinute s).
Definition setSelectedMinute (v : Z) (s : State) : State :=
  mkState (form s) (deadlineDate s) (deadlineTime s) (showModal s)
          (createdTask s) (showCalendar s) (showTimePicker s)
          (calendarDate s) (selectedHour s) v.

(** [setForm(prev => ({ ...prev, deadline: v }))]. *)
Definition setFormDeadline (v : string) (s : State) : State :=
  setForm (mkTaskCreate (title (form s)) (description (form s))
                        (status (form s)) v) s.

(** *** Event handlers

    A handler reads the cells of the render it was created in ([s]) and
    queues its updates; the result is the state of the next render. *)

(** [handleChange]: the inputs that use it are named title, description
    and status. *)
Definition handleChange (name value : string) (s : State) : State :=
  let f := form s in
  if String.eqb name "title"
  then setForm (mkTaskCreate value (description f) (status f) (deadline f)) s
  else if String.eqb name "description"
  then setForm (mkTaskCreate (title f) value (status f) (deadline f)) s
  else if String.eqb name "status"
  then setForm (mkTaskCreate (title f) (description f) value (deadline f)) s
  else if String.eqb name "deadline"
  then setForm (mkTaskCreate (title f) (description f) (status f) value) s
  else s.

Definition updateDeadline (date time : string) (s : State) : State :=
  if truthy date && truthy time
  then setFormDeadline (date ++ "T" ++ time ++ ":00") s
  else if truthy date
  then setFormDeadline (date ++ "T00:00:00") s
  else setFormDeadline "" s.

Definition handleDateChange (dateValue : string) (s : State) : State :=
  updateDeadline dateValue (deadlineTime s) (setDeadlineDate dateValue s).

Definition handleTimeChange (timeValue : string) (s : State) : State :=
  updateDeadline (deadlineDate s) timeValue (setDeadlineTime timeValue s).

(** [handleDateSelect]: [toISOString] throws a RangeError on an Invalid
    Date, before any setter has run. *)
Definition handleDateSelect (h : Host) (day month year : Z) (s : State) : State :=
  match new_Date_ymd h year month day with
  | None => s
  | Some selectedDate =>
      let formattedDate := split_head "T" (toISOString selectedDate) in
      setShowCalendar false
        (updateDeadline formattedDate (or_else (deadlineTime s) "00:00")
           (setDeadlineDate formattedDate s))
  end.

Definition selectToday (h : Host) (s : State) : State :=
  match new_Date_now h with
  | None => s
  | Some today =>
      let formattedDate := split_head "T" (toISOString today) in
      let formattedTime := slice0 5 (toTimeString h today) in
      setShowCalendar false
        (setCalendarDate (Some today)
           (updateDeadline formattedDate formattedTime
              (setDeadlineTime formattedTime
                 (setDeadlineDate formattedDate s))))
  end.

Definition handleTimeSelect (hour minute : Z) (s : State) : State :=
  let formattedTime :=
    padStart 2 "0" (toString hour) ++ ":" ++ padStart 2 "0" (toString minute) in
  setShowTimePicker false
    (updateDeadline (deadlineDate s) formattedTime
       (setDeadlineTime formattedTime s)).

Definition selectCurrentTime (h : Host) (s : State) : State :=
  handleTimeSelect (getHours h (now h)) (getMinutes h (now h)) s.

(** *** Calendar utilities *)

(** [getDaysInMonth]: the day of the month of day 0 of the next month.
    [None] is [NaN]. *)
Definition getDaysInMonth (h : Host) (date : Date) : option Z :=
  match date with
  | None => None
  | Some tv =>
      option_map (getDate h)
        (new_Date_ymd h (getFullYear h tv) (getMonth h tv + 1) 0)
  end.

Definition getFirstDayOfMonth (h : Host) (date : Date) : option Z :=
  match date with
  | None => None
  | Some tv =>
      option_map (getDay h)
        (new_Date_ymd h (getFullYear h tv) (getMonth h tv) 1)
  end.

Inductive Direction := prev | next.

(** The updater [navigateMonth] hands to [setCalendarDate]. *)
Definition navigateMonth_date (h : Host) (direction : Direction) (p : Date) : Date :=
  match p with
  | None => None
  | Some tv =>
      match direction with
      | prev => setMonth h tv (getMonth h tv - 1)
      | next => setMonth h tv (getMonth h tv + 1)
      end
  end.

Definition navigateMonth (h : Host) (direction : Direction) (s : State) : State :=
  setCalendarDate (navigateMonth_date h direction (calendarDate s)) s.

(** The two loops that fill [days]: [i < firstDay] and [day <= daysInMonth]
    are false when the bound is [NaN]. *)
Definition days_of (firstDay daysInMonth : option Z) : list (option Z) :=
  let lead := match firstDay with Some k => Z.to_nat k | None => O end in
  let n := match daysInMonth with Some n => Z.to_nat n | None => O end in
  repeat None lead ++ map (fun d => Some (Z.of_nat d)) (seq 1 n).

Definition days (h : Host) (s : State) : list (option Z) :=
  days_of (getFirstDayOfMonth h (calendarDate s))
          (getDaysInMonth h (calendarDate s)).

(** The click on a day cell of the grid. *)
Definition clickDay (h : Host) (day : Z) (s : State) : State :=
  match calendarDate s with
  | Some tv => handleDateSelect h day (getMonth h tv) (getFullYear h tv) s
  | None => s
  end.

(** *** Effects

    An effect runs after a render when one of its dependencies differs from
    the previous render's.  It reads the cells of the render it belongs to
    ([r]) and queues updates on the pending state ([s]). *)

(** The effect on [form.deadline]. *)
Definition syncDeadline (h : Host) (r s : State) : State :=
  if truthy (deadline (form r)) then
    match Date_parse h (deadline (form r)) with
    | None => s
    | Some date =>
        let dateStr := split_head "T" (toISOString date) in
        let timeStr := slice0 5 (toTimeString h date) in
        setSelectedMinute (getMinutes h date)
          (setSelectedHour (getHours h date)
             (setDeadlineTime timeStr
                (setDeadlineDate dateStr
                   (setCalendarDate (Some date) s))))
    end
  else s.

(** The effect on [deadlineTime]. *)
Definition syncTimePicker (r s : State) : State :=
  if truthy (deadlineTime r) then
    let parts := split ":" (deadlineTime r) in
    match Number_at parts 0, Number_at parts 1 with
    | Some hours, Some minutes =>
        setSelectedMinute minutes (setSelectedHour hours s)
    | _, _ => s
    end
  else s.

(** Did a dependency change since the previous render?  On mount there is
    no previous render and every effect runs. *)
Definition changed (p : option State) (r : State) (dep : State -> string) : bool :=
  match p with
  | None => true
  | Some p => negb (String.eqb (dep p) (dep r))
  end.

(** One commit: the effects whose dependency changed run in source order on
    the render [r]; the result is the state of the next render. *)
Definition runEffects (h : Host) (p : option State) (r : State) : State :=
  let s1 := if changed p r (fun s => deadline (form s))
            then syncDeadline h r r else r in
  if changed p r deadlineTime then syncTimePicker r s1 else s1.

(** [n] commits in a row, from the render [r] whose predecessor was [p]. *)
Fixpoint commits (h : Host) (n : nat) (p : option State) (r : State) : State :=
  match n with
  | O => r
  | S n' => commits h n' (Some r) (runEffects h p r)
  end.

(** *** Submission *)

(** What the component shows or sends to the outside. *)
Inductive Output :=
| Post (body : TaskCreate)
| Alert (message : string).

(** How the awaited [axios.post] ends. *)
Inductive PostResult :=
| Resolved (data : TaskResponse.t)
| Rejected (err : string).

(** [submitForm]: [post] stands for the request to the task-creation
    endpoint. *)
Definition submitForm (post : TaskCreate -> PostResult) (s : State)
  : State * list Output :=
  match post (form s) with
  | Resolved data =>
      (setDeadlineTime ""
         (setDeadlineDate ""
            (setForm (mkTaskCreate "" "" "pending" "")
               (setShowModal true (setCreatedTask (Some data) s)))),
       [Post (form s)])
  | Rejected err =>
      (s, [Post (form s); Alert ("Error creating task: " ++ err)])
  end.

Definition closeModal (s : State) : State :=
  setCreatedTask None (setShowModal false s).

(** *** The mutation paths of the deadline and its fragments *)

Inductive Mutation :=
| DateEdit (dateValue : string)
| TimeEdit (timeValue : string)
| CalendarSelect (day month year : Z)
| TimeConfirm (hour minute : Z)
| Today
| Now
| SubmitReset (data : TaskResponse.t).

Definition mutate (h : Host) (m : Mutation) (s : State) : State :=
  match m with
  | DateEdit v => handleDateChange v s
  | TimeEdit v => handleTimeChange v s
  | CalendarSelect d mo y => handleDateSelect h d mo y s
  | TimeConfirm hh mm => handleTimeSelect hh mm s
  | Today => selectToday h s
  | Now => selectCurrentTime h s
  | SubmitReset data => fst (submitForm (fun _ => Resolved data) s)
  end.

(** The agreement between the deadline and its two fragments. *)
Definition agree (s : State) : Prop :=
  (deadlineDate s <> "" -> deadlineTime s <> "" ->
     deadline (form s) = deadlineDate s ++ "T" ++ deadlineTime s ++ ":00")
  /\ (deadlineDate s <> "" -> deadlineTime s = "" ->
     deadline (form s) = deadlineDate s ++ "T00:00:00")
  /\ (deadlineDate s = "" -> deadlineTime s = "" -> deadline (form s) = "").

(** *** Reference notions the properties are stated against *)

(** A [YYYY-MM-DD] string for a calendar day (month 1-based). *)
Definition date_string (y mo d : Z) : string :=
  digits_fixed 4 y ++ "-" ++ digits_fixed 2 mo ++ "-" ++ digits_fixed 2 d.

(** An [HH:mm] string. *)
Definition time_string (hh mi : Z) : string :=
  digits_fixed 2 hh ++ ":" ++ digits_fixed 2 mi.

Definition valid_date (y mo d : Z) : Prop :=
  0 <= y <= 9999 /\ 1 <= mo <= 12 /\ 1 <= d <= DaysInMonth y (mo - 1).

Definition valid_time (hh mi : Z) : Prop :=
  0 <= hh <= 23 /\ 0 <= mi <= 59.

(** Hosts used in the examples, with the current time [t]: UTC, and British
    Summer Time (UTC+1).  Their fallback parser rejects every string. *)
Definition utc (t : Z) : Host := mkHost 0 t (fun _ => None).
Definition bst (t : Z) : Host := mkHost 3600000 t (fun _ => None).

End App.

(* ================================================================== *)
(** ** The rest of the component: popups, staging, what the render shows *)
(* ================================================================== *)

Module AppView.
Import JS JSDate App.

(** *** Click-outside dismissal *)

(** Where a [mousedown] landed, as the four refs see it: [None] when
    [ref.current] is null, [Some b] when [ref.current.contains(target)] is
    [b]. *)
Record ClickTarget := mkClickTarget {
  calendarRef : option bool;
  calendarButtonRef : option bool;
  timePickerRef : option bool;
  timePickerButtonRef : option bool
}.

(** [a.current && b.current && !a.current.contains(t) && !b.current.contains(t)]. *)
Definition outside_both (a b : option bool) : bool :=
  match a, b with
  | Some ina, Some inb => negb ina && negb inb
  | _, _ => false
  end.

(** [handleClickOutside], with the [showCalendar] and [showTimePicker] of the
    render that registered the listener. *)
Definition handleClickOutside (t : ClickTarget) (s : State) : State :=
  let s1 := if showCalendar s && outside_both (calendarRef t) (calendarButtonRef t)
            then setShowCalendar false s else s in
  if showTimePicker s && outside_both (timePickerRef t) (timePickerButtonRef t)
  then setShowTimePicker false s1 else s1.

(** *** The inline handlers of the popups *)

Definition toggleCalendar (s : State) : State :=
  setShowCalendar (negb (showCalendar s)) s.

Definition toggleTimePicker (s : State) : State :=
  setShowTimePicker (negb (showTimePicker s)) s.

(** The hour and minute option buttons. *)
Definition pickHour (i : Z) (s : State) : State := setSelectedHour i s.
Definition pickMinute (i : Z) (s : State) : State := setSelectedMinute i s.

(** The Confirm button. *)
Definition confirmTime (s : State) : State :=
  handleTimeSelect (selectedHour s) (selectedMinute s) s.

(** The labels of the option buttons: [Array.from({ length: n }, (_, i) =>
    i.toString().padStart(2, '0'))]. *)
Definition optionLabels (n : nat) : list string :=
  map (fun i => padStart 2 "0" (toString (Z.of_nat i))) (seq 0 n).

(** *** What the render derives from the state *)

(** [showModal && createdTask]. *)
Definition modalVisible (s : State) : bool :=
  showModal s && match createdTask s with Some _ => true | None => false end.

(** The fields of a date-only form [YYYY-MM-DD]. *)
Definition parse_date_fields (s : string) : option (Z * Z * Z) :=
  match take_digits 4 (list_ascii_of_string s) with
  | Some (y, l1) =>
  match expect "-" l1 with Some l2 =>
  match take_digits 2 l2 with Some (mo, l3) =>
  match expect "-" l3 with Some l4 =>
  match take_digits 2 l4 with
  | Some (d, []) => Some (y, mo, d)
  | _ => None
  end
  | None => None end | None => None end | None => None end
  | None => None
  end.

(** [new Date(s)] as the render calls it on the date fragment: a date-only
    form naming a real calendar day is midnight UTC of that day; every other
    string goes through [Date_parse]. *)
Definition new_Date_string (h : Host) (s : string) : Date :=
  match parse_date_fields s with
  | Some (y, mo, d) =>
      if (1 <=? mo) && (mo <=? 12) && (1 <=? d) && (d <=? DaysInMonth y (mo - 1))
      then TimeClip (MakeDate (MakeDay y (mo - 1) d) (MakeTime 0 0 0 0))
      else Date_parse h s
  | None => Date_parse h s
  end.

(** [isToday] of a grid cell ([None] is a placeholder). *)
Definition isToday (h : Host) (day : option Z) (s : State) : bool :=
  match day, calendarDate s with
  | Some d, Some c =>
      (d =? getDate h (now h))
      && (getMonth h c =? getMonth h (now h))
      && (getFullYear h c =? getFullYear h (now h))
  | _, _ => false
  end.

(** The truthiness of [isSelected] of a grid cell. *)
Definition isSelected (h : Host) (day : option Z) (s : State) : bool :=
  match day with
  | None => false
  | Some d =>
      negb (d =? 0) && truthy (deadlineDate s)
      && match new_Date_string h (deadlineDate s), calendarDate s with
         | Some t, Some c =>
             (getDate h t =? d)
             && (getMonth h t =? getMonth h c)
             && (getFullYear h t =? getFullYear h c)
         | _, _ => false
         end
  end.

(** *** Reference notions *)

(** Fragments and deadline of a valid date and time that agree. *)
Definition settled (y mo d hh mi : Z) (s : State) : Prop :=
  deadlineDate s = date_string y mo d
  /\ deadlineTime s = time_string hh mi
  /\ deadline (form s)
     = (date_string y mo d ++ "T" ++ time_string hh mi ++ ":00")%string.

End AppView.

(* ================================================================== *)
(** ** Facts about the string helpers                                  *)
(* ================================================================== *)

Module JSFacts.
Import JS JSDate.

Lemma string_app_assoc (a b c : string) : ((a ++ b) ++ c = a ++ (b ++ c))%string.
Proof. induction a as [|x a IH]; simpl; [reflexivity | now rewrite IH]. Qed.

Lemma string_app_nil_r (a : string) : (a ++ "" = a)%string.
Proof. induction a as [|x a IH]; simpl; [reflexivity | now rewrite IH]. Qed.

Lemma string_length_app (a b : string) :
  String.length (a ++ b) = (String.length a + String.length b)%nat.
Proof. induction a as [|x a IH]; simpl; [reflexivity | now rewrite IH]. Qed.

Lemma no_char_app (c : ascii) (a b : string) :
  no_char c (a ++ b) = no_char c a && no_char c b.
Proof.
  induction a as [|x a IH]; simpl; [reflexivity|].
  now rewrite IH, andb_assoc.
Qed.

Lemma split_nonempty (c : ascii) (s : string) : split c s <> [].
Proof.
  destruct s as [|x s]; simpl; [discriminate|].
  destruct (Ascii.eqb x c); [discriminate|].
  destruct (split c s); discriminate.
Qed.

Lemma split_head_app (c : ascii) (a b : string) :
  no_char c a = true -> split_head c (a ++ b) = (a ++ split_head c b)%string.
Proof.
  unfold split_head. induction a as [|x a IH]; simpl; intros H; [reflexivity|].
  apply andb_prop in H. destruct H as [Hx Ha].
  apply negb_true_iff in Hx. rewrite Hx.
  specialize (IH Ha).
  pose proof (split_nonempty c (a ++ b)) as Hne.
  destruct (split c (a ++ b)) as [|p ps]; [congruence|].
  now rewrite IH.
Qed.

Lemma split_head_sep (c : ascii) (b : string) : split_head c (String c b) = "".
Proof. unfold split_head. simpl. now rewrite Ascii.eqb_refl. Qed.

Ltac digit_cases n :=
  let k := fresh "k" in
  let Hcase := fresh "Hcase" in
  unfold digit_char;
  assert (Hcase : n mod 10 = 0 \/ n mod 10 = 1 \/ n mod 10 = 2 \/ n mod 10 = 3
                  \/ n mod 10 = 4 \/ n mod 10 = 5 \/ n mod 10 = 6
                  \/ n mod 10 = 7 \/ n mod 10 = 8 \/ n mod 10 = 9)
    by (pose proof (Z.mod_pos_bound n 10); lia);
  set (k := n mod 10) in *; clearbody k;
  repeat (destruct Hcase as [Hcase | Hcase]); subst k.

Lemma digit_char_is_digit (n : Z) : is_digit (digit_char n) = true.
Proof. digit_cases n; reflexivity. Qed.

Lemma digit_val_char (n : Z) : digit_val (digit_char n) = n mod 10.
Proof. digit_cases n; reflexivity. Qed.

Lemma digit_char_not (c : ascii) (n : Z) :
  is_digit c = false -> Ascii.eqb (digit_char n) c = false.
Proof.
  intros Hc. destruct (Ascii.eqb_spec (digit_char n) c) as [E|]; [|reflexivity].
  rewrite <- E, digit_char_is_digit in Hc. discriminate.
Qed.

Lemma digits_fixed_no_char (c : ascii) (w : nat) :
  is_digit c = false -> forall n, no_char c (digits_fixed w n) = true.
Proof.
  intros Hc. induction w as [|w IH]; intros n; simpl; [reflexivity|].
  rewrite no_char_app, IH. simpl. now rewrite digit_char_not.
Qed.

Lemma digits_fixed_length (w : nat) : forall n, String.length (digits_fixed w n) = w.
Proof.
  induction w as [|w IH]; intros n; simpl; [reflexivity|].
  rewrite string_length_app, IH. simpl. lia.
Qed.

Lemma list_ascii_app (a b : string) :
  list_ascii_of_string (a ++ b) = (list_ascii_of_string a ++ list_ascii_of_string b)%list.
Proof. induction a as [|x a IH]; simpl; [reflexivity | now rewrite IH]. Qed.

Lemma digits_fixed_all_digits (w : nat) :
  forall n, forallb is_digit (list_ascii_of_string (digits_fixed w n)) = true.
Proof.
  induction w as [|w IH]; intros n; simpl; [reflexivity|].
  rewrite list_ascii_app, forallb_app, IH. simpl.
  now rewrite digit_char_is_digit.
Qed.

Lemma digits_fixed_value (w : nat) :
  forall n, 0 <= n < 10 ^ Z.of_nat w ->
  fold_left (fun acc c => 10 * acc + digit_val c)
            (list_ascii_of_string (digits_fixed w n)) 0 = n.
Proof.
  induction w as [|w IH]; intros n Hn.
  - simpl in *. lia.
  - cbn [digits_fixed]. rewrite list_ascii_app, fold_left_app.
    rewrite IH.
    + cbn [list_ascii_of_string fold_left]. rewrite digit_val_char.
      Z.div_mod_to_equations. lia.
    + rewrite Nat2Z.inj_succ, Z.pow_succ_r in Hn by lia.
      set (p := 10 ^ Z.of_nat w) in *. clearbody p.
      Z.div_mod_to_equations. lia.
Qed.

Lemma firstn_length_app {A} (l r : list A) : firstn (List.length l) (l ++ r) = l.
Proof. induction l as [|x l IH]; simpl; [reflexivity | now rewrite IH]. Qed.

Lemma skipn_length_app {A} (l r : list A) : skipn (List.length l) (l ++ r) = r.
Proof. induction l as [|x l IH]; simpl; [reflexivity | exact IH]. Qed.

Lemma list_ascii_length (s : string) :
  List.length (list_ascii_of_string s) = String.length s.
Proof. induction s as [|x s IH]; simpl; [reflexivity | now rewrite IH]. Qed.

Lemma take_digits_fixed (w : nat) (n : Z) (rest : string) :
  0 <= n < 10 ^ Z.of_nat w ->
  take_digits w (list_ascii_of_string (digits_fixed w n ++ rest)) =
    Some (n, list_ascii_of_string rest).
Proof.
  intros Hn. unfold take_digits. rewrite list_ascii_app.
  pose proof (digits_fixed_all_digits w n) as Hd.
  pose proof (digits_fixed_value w n Hn) as Hv.
  assert (Hl : List.length (list_ascii_of_string (digits_fixed w n)) = w)
    by (now rewrite list_ascii_length, digits_fixed_length).
  revert Hd Hv Hl. generalize (list_ascii_of_string (digits_fixed w n)) as l.
  intros l Hd Hv Hl. subst w.
  rewrite firstn_length_app, skipn_length_app, Nat.eqb_refl, Hd, Hv.
  reflexivity.
Qed.

End JSFacts.

(* ================================================================== *)
(** ** Facts about the Date arithmetic                                 *)
(* ================================================================== *)

Module JSDateFacts.
Import JSDate.

Lemma DayFromYear_succ y : DayFromYear (y + 1) = DayFromYear y + DaysInYear y.
Proof.
  unfold DayFromYear, DaysInYear.
  destruct (Z.eqb_spec (y mod 4) 0), (Z.eqb_spec (y mod 100) 0),
    (Z.eqb_spec (y mod 400) 0); cbn [negb];
  Z.div_mod_to_equations; lia.
Qed.

Lemma DaysInYear_cases y : DaysInYear y = 365 \/ DaysInYear y = 366.
Proof. unfold DaysInYear. repeat (destruct (negb _)); auto. Qed.

Lemma YearFromDay_estimate y d :
  DayFromYear y <= d < DayFromYear (y + 1) ->
  y - 1 <= 1970 + (400 * d) / 146097 <= y + 1.
Proof.
  unfold DayFromYear. intros H.
  Z.div_mod_to_equations. lia.
Qed.

Lemma YearFromDay_unique y d :
  DayFromYear y <= d < DayFromYear (y + 1) -> YearFromDay d = y.
Proof.
  intros H. pose proof (YearFromDay_estimate y d H) as He.
  unfold YearFromDay. set (y0 := 1970 + 400 * d / 146097) in *.
  assert (Hc : y0 = y - 1 \/ y0 = y \/ y0 = y + 1) by lia.
  pose proof (DayFromYear_succ (y - 1)) as Hp.
  pose proof (DaysInYear_cases (y - 1)) as Hq.
  replace (y - 1 + 1) with y in Hp by lia.
  destruct Hc as [-> | [-> | ->]].
  - replace (y - 1 + 1) with y by lia.
    destruct (Z.ltb_spec d (DayFromYear (y - 1))); [lia|].
    destruct (Z.leb_spec (DayFromYear y) d); lia.
  - destruct (Z.ltb_spec d (DayFromYear y)); [lia|].
    destruct (Z.leb_spec (DayFromYear (y + 1)) d); lia.
  - destruct (Z.ltb_spec d (DayFromYear (y + 1))); lia.
Qed.

Lemma Day_of_day_time d t : 0 <= t < msPerDay -> Day (d * msPerDay + t) = d.
Proof. unfold Day, msPerDay. intros. Z.div_mod_to_equations. lia. Qed.

Lemma TimeWithinDay_of_day_time d t :
  0 <= t < msPerDay -> TimeWithinDay (d * msPerDay + t) = t.
Proof. unfold TimeWithinDay, msPerDay. intros. Z.div_mod_to_equations. lia. Qed.

Lemma DaysInMonth_sum y mn :
  0 <= mn <= 11 -> DaysBeforeMonth y mn + DaysInMonth y mn =
     if mn =? 11 then DaysInYear y else DaysBeforeMonth y (mn + 1).
Proof.
  intros H.
  assert (Hc : mn = 0 \/ mn = 1 \/ mn = 2 \/ mn = 3 \/ mn = 4 \/ mn = 5 \/ mn = 6
              \/ mn = 7 \/ mn = 8 \/ mn = 9 \/ mn = 10 \/ mn = 11) by lia.
  pose proof (DaysInYear_cases y) as Hy.
  unfold DaysBeforeMonth, DaysInMonth.
  destruct Hy as [Hy | Hy]; rewrite !Hy;
    repeat (destruct Hc as [-> | Hc]); [.. | subst mn | | | | | | | | | | | | subst mn];
    reflexivity.
Qed.

Lemma civil_of_day y mn date tod :
  0 <= mn <= 11 -> 1 <= date <= DaysInMonth y mn -> 0 <= tod < msPerDay ->
  civil y mn date ((DayFromYear y + DaysBeforeMonth y mn + date - 1) * msPerDay + tod).
Proof.
  intros Hm Hd Ht.
  set (t := _ * msPerDay + tod).
  assert (HD : Day t = DayFromYear y + DaysBeforeMonth y mn + date - 1)
    by (apply Day_of_day_time; exact Ht).
  pose proof (DayFromYear_succ y) as Hs.
  pose proof (DaysInMonth_sum y mn Hm) as Hsum.
  assert (Hc : mn = 0 \/ mn = 1 \/ mn = 2 \/ mn = 3 \/ mn = 4 \/ mn = 5 \/ mn = 6
              \/ mn = 7 \/ mn = 8 \/ mn = 9 \/ mn = 10 \/ mn = 11) by lia.
  assert (HY : YearFromTime t = y).
  { unfold YearFromTime. rewrite HD. apply YearFromDay_unique.
    rewrite Hs. clear Hs. revert Hd Hsum. unfold DaysBeforeMonth, DaysInMonth.
    pose proof (DaysInYear_cases y) as Hy.
    destruct Hy as [Hy | Hy]; rewrite !Hy;
      repeat (destruct Hc as [-> | Hc]); [.. | subst mn | | | | | | | | | | | | subst mn];
      cbn; lia. }
  unfold civil. split; [exact HY|].
  unfold DateFromTime, MonthFromTime, DayWithinYear, InLeapYear.
  rewrite HY, HD.
  replace (DayFromYear y + DaysBeforeMonth y mn + date - 1 - DayFromYear y)
    with (DaysBeforeMonth y mn + date - 1) by lia.
  revert Hd. unfold DaysBeforeMonth, DaysInMonth.
  destruct (DaysInYear y =? 366);
  repeat (destruct Hc as [-> | Hc]); [.. | subst mn | | | | | | | | | | | | subst mn];
  intros Hd;
  repeat match goal with |- context [?a <? ?b] => destruct (Z.ltb_spec a b); try lia end;
  split; lia.
Qed.

Lemma YearFromDay_bracket d :
  let y0 := 1970 + (400 * d) / 146097 in
  DayFromYear (y0 - 1) <= d < DayFromYear (y0 + 2).
Proof.
  cbv zeta. unfold DayFromYear. Z.div_mod_to_equations. lia.
Qed.

Lemma YearFromDay_spec d :
  DayFromYear (YearFromDay d) <= d < DayFromYear (YearFromDay d + 1).
Proof.
  pose proof (YearFromDay_bracket d) as Hb. cbv zeta in Hb.
  unfold YearFromDay. set (y0 := 1970 + 400 * d / 146097) in *.
  destruct (Z.ltb_spec d (DayFromYear y0)).
  - replace (y0 - 1 + 1) with y0 by lia. lia.
  - destruct (Z.leb_spec (DayFromYear (y0 + 1)) d).
    + replace (y0 + 1 + 1) with (y0 + 2) by lia. lia.
    + lia.
Qed.

Lemma MonthFromTime_range t : 0 <= MonthFromTime t <= 11.
Proof.
  unfold MonthFromTime.
  repeat match goal with |- context [?a <? ?b] => destruct (a <? b); try lia end.
Qed.

End JSDateFacts.

(* ================================================================== *)
(** ** Properties of the handlers and effects                          *)
(* ================================================================== *)

Module AppFacts.
Import JS JSDate App JSFacts JSDateFacts.

Lemma truthy_true (s : string) : truthy s = true <-> s <> "".
Proof. destruct s; simpl; split; congruence. Qed.

Lemma truthy_false (s : string) : truthy s = false <-> s = "".
Proof. destruct s; simpl; split; congruence. Qed.

(** *** [updateDeadline] writes the deadline and nothing else *)

Lemma updateDeadline_deadline (date time : string) (s : State) :
  deadline (form (updateDeadline date time s)) =
    if truthy date && truthy time then date ++ "T" ++ time ++ ":00"
    else if truthy date then date ++ "T00:00:00"
    else "".
Proof.
  unfold updateDeadline.
  destruct (truthy date), (truthy time); reflexivity.
Qed.

Lemma updateDeadline_date (date time : string) (s : State) :
  deadlineDate (updateDeadline date time s) = deadlineDate s.
Proof.
  unfold updateDeadline.
  destruct (truthy date), (truthy time); reflexivity.
Qed.

Lemma updateDeadline_time (date time : string) (s : State) :
  deadlineTime (updateDeadline date time s) = deadlineTime s.
Proof.
  unfold updateDeadline.
  destruct (truthy date), (truthy time); reflexivity.
Qed.

(** Recomputing the deadline from the two fragments of a state restores
    the agreement. *)
Lemma updateDeadline_agree (s : State) :
  agree (updateDeadline (deadlineDate s) (deadlineTime s) s).
Proof.
  unfold agree.
  rewrite updateDeadline_deadline, updateDeadline_date, updateDeadline_time.
  repeat split; intros Hd Ht.
  - apply truthy_true in Hd, Ht. now rewrite Hd, Ht.
  - apply truthy_true in Hd. apply truthy_false in Ht. now rewrite Hd, Ht.
  - apply truthy_false in Hd. now rewrite Hd.
Qed.

(** The calendar path passes [deadlineTime || '00:00']. *)
Lemma updateDeadline_midnight_agree (s : State) :
  agree (updateDeadline (deadlineDate s) (or_else (deadlineTime s) "00:00") s).
Proof.
  unfold or_else.
  destruct (truthy (deadlineTime s)) eqn:Ht.
  - apply updateDeadline_agree.
  - unfold agree.
    rewrite updateDeadline_deadline, updateDeadline_date, updateDeadline_time.
    apply truthy_false in Ht.
    repeat split; intros Hd Ht'; try congruence.
    + apply truthy_true in Hd. now rewrite Hd.
    + apply truthy_false in Hd. now rewrite Hd.
Qed.

(** The agreement looks at the deadline and the two fragments only. *)
Lemma agree_ext (s s' : State) :
  deadline (form s') = deadline (form s) ->
  deadlineDate s' = deadlineDate s ->
  deadlineTime s' = deadlineTime s ->
  agree s -> agree s'.
Proof. unfold agree. intros -> -> ->. trivial. Qed.

Lemma agree_initial (h : Host) : agree (initial h).
Proof. unfold agree; simpl; repeat split; congruence. Qed.

Lemma handleDateChange_agree (v : string) (s : State) :
  agree (handleDateChange v s).
Proof. exact (updateDeadline_agree (setDeadlineDate v s)). Qed.

Lemma handleTimeChange_agree (v : string) (s : State) :
  agree (handleTimeChange v s).
Proof. exact (updateDeadline_agree (setDeadlineTime v s)). Qed.

Lemma handleTimeSelect_agree (hour minute : Z) (s : State) :
  agree (handleTimeSelect hour minute s).
Proof.
  unfold handleTimeSelect.
  set (t := (padStart 2 "0" (toString hour) ++ ":" ++ _)%string).
  apply (agree_ext _ _ eq_refl eq_refl eq_refl
           (updateDeadline_agree (setDeadlineTime t s))).
Qed.

(** The calendar path either recomputes the deadline or, on an Invalid
    Date, throws before any setter and leaves the state as it was. *)
Lemma handleDateSelect_agree (h : Host) (day month year : Z) (s : State) :
  agree (handleDateSelect h day month year s)
  \/ (new_Date_ymd h year month day = None
      /\ handleDateSelect h day month year s = s).
Proof.
  unfold handleDateSelect.
  destruct (new_Date_ymd h year month day) as [tv|]; [left | right; auto].
  set (d := split_head "T" (toISOString tv)).
  apply (agree_ext _ _ eq_refl eq_refl eq_refl
           (updateDeadline_midnight_agree (setDeadlineDate d s))).
Qed.

Lemma selectToday_agree (h : Host) (s : State) : agree (selectToday h s).
Proof.
  unfold selectToday, new_Date_now.
  set (d := split_head "T" (toISOString (now h))).
  set (t := slice0 5 (toTimeString h (now h))).
  apply (agree_ext _ _ eq_refl eq_refl eq_refl
           (updateDeadline_agree (setDeadlineTime t (setDeadlineDate d s)))).
Qed.

Lemma submit_reset_agree (data : TaskResponse.t) (s : State) :
  agree (fst (submitForm (fun _ => Resolved data) s)).
Proof. unfold agree; simpl; repeat split; congruence. Qed.

(** As a handler leaves it, before any effect has run, the state of every
    mutation path agrees, whatever the state before: with both fragments
    non-empty the deadline is [date ++ "T" ++ time ++ ":00"], with only the
    date it is [date ++ "T00:00:00"], with both empty it is empty.  The one
    exception is a calendar selection that throws on an Invalid Date and
    writes nothing. *)
Lemma mutate_establishes_agree (h : Host) (m : Mutation) (s : State) :
  agree (mutate h m s)
  \/ (exists day month year,
        m = CalendarSelect day month year
        /\ new_Date_ymd h year month day = None /\ mutate h m s = s).
Proof.
  destruct m as [v | v | day month year | hh mm | | | data]; cbn [mutate].
  - left. apply handleDateChange_agree.
  - left. apply handleTimeChange_agree.
  - destruct (handleDateSelect_agree h day month year s) as [H | [H1 H2]];
      [left; exact H | right; exists day, month, year; auto].
  - left. apply handleTimeSelect_agree.
  - left. apply selectToday_agree.
  - left. apply handleTimeSelect_agree.
  - left. apply submit_reset_agree.
Qed.

(** C2.  In British Summer Time the agreement does not survive the effect
    that every change of the deadline triggers.  From the first render, a
    date-field edit to 2024-06-15 leaves the deadline 2024-06-15T00:00:00,
    and once the effects have run the date fragment is 2024-06-14 beside the
    time fragment 00:00; the calendar click on 15 June 2024 leaves the
    deadline 2024-06-14T00:00:00 beside the date fragment 2024-06-13.  Both
    fragments are non-empty and the deadline is not [date ++ "T" ++ time ++
    ":00"]. *)
Theorem mutation_then_effects_BST_disagree :
  let h := bst 1718407800000 in
  let s := initial h in
  let edited := commits h 2 (Some s) (mutate h (DateEdit "2024-06-15") s) in
  let clicked := commits h 2 (Some s) (mutate h (CalendarSelect 15 5 2024) s) in
  agree s
  /\ agree (mutate h (DateEdit "2024-06-15") s)
  /\ agree (mutate h (CalendarSelect 15 5 2024) s)
  /\ (deadline (form edited), deadlineDate edited, deadlineTime edited)
     = ("2024-06-15T00:00:00", "2024-06-14", "00:00")
  /\ (deadline (form clicked), deadlineDate clicked, deadlineTime clicked)
     = ("2024-06-14T00:00:00", "2024-06-13", "00:00")
  /\ ~ agree edited /\ ~ agree clicked.
Proof.
  cbv zeta.
  split; [apply agree_initial|].
  split; [apply handleDateChange_agree|].
  split; [destruct (handleDateSelect_agree (bst 1718407800000) 15 5 2024
                      (initial (bst 1718407800000))) as [H | [H _]];
          [exact H | vm_compute in H; discriminate]|].
  split; [vm_compute; reflexivity|].
  split; [vm_compute; reflexivity|].
  split; intros [H _]; vm_compute in H;
    specialize (H ltac:(discriminate) ltac:(discriminate)); discriminate.
Qed.

(** *** The synchronisation effects *)

Lemma syncDeadline_form (h : Host) (r s : State) :
  form (syncDeadline h r s) = form s.
Proof.
  unfold syncDeadline.
  destruct (truthy _); [|reflexivity].
  destruct (Date_parse _ _); reflexivity.
Qed.

Lemma syncTimePicker_form (r s : State) : form (syncTimePicker r s) = form s.
Proof.
  unfold syncTimePicker.
  destruct (truthy _); [|reflexivity].
  destruct (Number_at _ 0); [|reflexivity].
  destruct (Number_at _ 1); reflexivity.
Qed.

Lemma syncTimePicker_deadlineTime (r s : State) :
  deadlineTime (syncTimePicker r s) = deadlineTime s.
Proof.
  unfold syncTimePicker.
  destruct (truthy _); [|reflexivity].
  destruct (Number_at _ 0); [|reflexivity].
  destruct (Number_at _ 1); reflexivity.
Qed.

(** No effect writes the draft. *)
Lemma runEffects_form (h : Host) (p : option State) (r : State) :
  form (runEffects h p r) = form r.
Proof.
  unfold runEffects.
  destruct (changed p r deadlineTime), (changed p r _);
    rewrite ?syncTimePicker_form, ?syncDeadline_form; reflexivity.
Qed.

Lemma commits_form (h : Host) (n : nat) :
  forall p r, form (commits h n p r) = form r.
Proof.
  induction n as [|n IH]; intros p r; simpl; [reflexivity|].
  now rewrite IH, runEffects_form.
Qed.

(** A render whose two dependencies are those of the render before it runs
    no effect. *)
Lemma runEffects_same_deps (h : Host) (a b : State) :
  deadline (form a) = deadline (form b) ->
  deadlineTime a = deadlineTime b ->
  runEffects h (Some a) b = b.
Proof.
  intros Hd Ht. unfold runEffects, changed.
  now rewrite Hd, Ht, !String.eqb_refl.
Qed.

Lemma commits_same_deps (h : Host) (n : nat) :
  forall a b,
    deadline (form a) = deadline (form b) ->
    deadlineTime a = deadlineTime b ->
    commits h n (Some a) b = b.
Proof.
  induction n as [|n IH]; intros a b Hd Ht; simpl; [reflexivity|].
  rewrite (runEffects_same_deps h a b Hd Ht).
  now apply IH.
Qed.

(** After a commit in which the deadline did not change, only the effect on
    [deadlineTime] can run, and it leaves [deadlineTime] as it is. *)
Lemma runEffects_second (h : Host) (a b : State) :
  deadline (form a) = deadline (form b) ->
  deadlineTime (runEffects h (Some a) b) = deadlineTime b.
Proof.
  intros Hd. unfold runEffects. cbn [changed].
  rewrite Hd, String.eqb_refl. cbn [negb].
  destruct (negb _); [apply syncTimePicker_deadlineTime | reflexivity].
Qed.

(** C5.  The effects never write [form.deadline], and from every render
    (with or without a previous one) the chain of effect commits is at its
    fixed point after two commits: every later commit changes nothing. *)
Theorem effects_reach_fixed_point (h : Host) (p : option State) (r : State) :
  (forall n, deadline (form (commits h n p r)) = deadline (form r)) /\
  (forall n, commits h (2 + n) p r = commits h 2 p r) /\
  runEffects h (Some (commits h 1 p r)) (commits h 2 p r) = commits h 2 p r.
Proof.
  split; [|split].
  - intros n. now rewrite commits_form.
  - intros n. cbn [commits Nat.add].
    apply commits_same_deps.
    + now rewrite !runEffects_form.
    + symmetry. apply runEffects_second. now rewrite runEffects_form.
  - cbn [commits].
    apply runEffects_same_deps.
    + now rewrite !runEffects_form.
    + symmetry. apply runEffects_second. now rewrite runEffects_form.
Qed.

(** C9.  When the deadline is a non-empty string that [Date.parse] rejects,
    the effect on [form.deadline] queues no update: fragments, calendar
    cursor and staged hour and minute stay as they are.  The effect is a
    total function: nothing is thrown. *)
Theorem syncDeadline_unparseable (h : Host) (r s : State) :
  deadline (form r) <> "" ->
  Date_parse h (deadline (form r)) = None ->
  syncDeadline h r s = s.
Proof.
  intros Hne Hnan. unfold syncDeadline.
  apply truthy_true in Hne. now rewrite Hne, Hnan.
Qed.

Lemma syncDeadline_unparseable_witness :
  let r := handleDateChange "20245-06-15" (initial (utc 0)) in
  deadline (form r) <> "" /\
  Date_parse (utc 0) (deadline (form r)) = None /\
  syncDeadline (utc 0) r r = r.
Proof.
  cbv zeta. split; [|split].
  - simpl. discriminate.
  - vm_compute. reflexivity.
  - apply (syncDeadline_unparseable (utc 0)).
    + simpl. discriminate.
    + vm_compute. reflexivity.
Defined.

(** C6.  [submitForm] posts the draft as it is, once.  When the request
    resolves, the response becomes [createdTask], the modal opens, the
    draft and both fragments are back at their defaults and nothing else
    changes; when it is rejected the state is untouched and one alert
    carrying the error text is shown. *)
Theorem submitForm_outcomes (s : State) (data : TaskResponse.t) (err : string) :
  submitForm (fun _ => Resolved data) s =
    (mkState emptyForm "" "" true (Some data)
             (showCalendar s) (showTimePicker s) (calendarDate s)
             (selectedHour s) (selectedMinute s),
     [Post (form s)])
  /\ submitForm (fun _ => Rejected err) s =
    (s, [Post (form s); Alert ("Error creating task: " ++ err)]).
Proof. split; reflexivity. Qed.

(** Confirming 9 hours 5 minutes in the time picker. *)
Example handleTimeSelect_09_05 :
  let s := handleTimeSelect 9 5 (handleDateChange "2024-12-31" (initial (utc 0))) in
  deadlineTime s = "09:05" /\ deadline (form s) = "2024-12-31T09:05:00"
  /\ showTimePicker s = false.
Proof. vm_compute. repeat split. Qed.

(** The request body is the draft whatever the endpoint answers. *)
Lemma submitForm_posts_draft (post : TaskCreate -> PostResult) (s : State) :
  hd_error (snd (submitForm post s)) = Some (Post (form s)).
Proof. unfold submitForm. destruct (post (form s)); reflexivity. Qed.

(** C10.  With an empty date fragment, an edit of the time field, a
    time-picker confirmation and Now all leave the deadline empty, and the
    effects that follow keep it empty. *)
Theorem time_without_date_keeps_deadline_empty
    (h : Host) (s : State) (v : string) (hour minute : Z) (n : nat) :
  deadlineDate s = "" ->
  deadline (form (commits h n (Some s) (handleTimeChange v s))) = ""
  /\ deadline (form (commits h n (Some s) (handleTimeSelect hour minute s))) = ""
  /\ deadline (form (commits h n (Some s) (selectCurrentTime h s))) = "".
Proof.
  intros Hd. rewrite !commits_form.
  unfold selectCurrentTime, handleTimeSelect, handleTimeChange.
  cbn [setShowTimePicker form].
  rewrite !updateDeadline_deadline, Hd. auto.
Qed.

Lemma time_without_date_keeps_deadline_empty_witness :
  deadlineDate (initial (utc 0)) = "" /\
  deadline (form (commits (utc 0) 3 (Some (initial (utc 0)))
                    (handleTimeChange "09:05" (initial (utc 0))))) = "".
Proof.
  split.
  - reflexivity.
  - apply (time_without_date_keeps_deadline_empty
             (utc 0) (initial (utc 0)) "09:05" 9 5 3).
    reflexivity.
Defined.

(** *** Where the date is taken in UTC and the time in local time

    [toISOString] prints the UTC fields of a time value, while
    [new Date(y, m, d)], the parse of a zone-less date-time string,
    [toTimeString] and the getters work in local time.  East of Greenwich
    the first minutes of a local day belong to the previous UTC day. *)

(** C1.  In British Summer Time the pair 2024-06-15, 00:30 makes the
    deadline 2024-06-15T00:30:00, and the effect on [form.deadline] reads
    it back as 2024-06-14, 00:30: the date fragment is not the original. *)
Theorem roundtrip_BST_loses_a_day :
  let h := bst 0 in
  let s := updateDeadline (date_string 2024 6 15) (time_string 0 30) (initial h) in
  let s' := syncDeadline h s s in
  date_string 2024 6 15 = "2024-06-15" /\ time_string 0 30 = "00:30"
  /\ deadline (form s) = "2024-06-15T00:30:00"
  /\ deadlineDate s' = "2024-06-14" /\ deadlineTime s' = "00:30".
Proof. vm_compute. repeat split. Qed.

(** C4.  In British Summer Time, with June 2024 visible, the click on day
    15 sets the date fragment to 2024-06-14 and the deadline to
    2024-06-14T00:00:00; the calendar closes. *)
Theorem clickDay_BST_previous_day :
  let h := bst 1718407800000 in
  let s := setShowCalendar true (initial h) in
  let s' := clickDay h 15 s in
  option_map (getFullYear h) (calendarDate s) = Some 2024
  /\ option_map (getMonth h) (calendarDate s) = Some 5
  /\ deadlineDate s' = "2024-06-14"
  /\ deadline (form s') = "2024-06-14T00:00:00"
  /\ showCalendar s' = false.
Proof. vm_compute. repeat split. Qed.

(** C7.  In British Summer Time at 00:30 on 15 June 2024, Today sets the
    date fragment to 2024-06-14 and the time fragment to 00:30, and the
    deadline to 2024-06-14T00:30:00: the time of day is the local one, the
    date is not the local date. *)
Theorem selectToday_BST_previous_day :
  let h := bst 1718407800000 in
  let s' := selectToday h (setShowCalendar true (initial h)) in
  (getFullYear h (now h), getMonth h (now h), getDate h (now h)) = (2024, 5, 15)
  /\ (getHours h (now h), getMinutes h (now h)) = (0, 30)
  /\ deadlineDate s' = "2024-06-14" /\ deadlineTime s' = "00:30"
  /\ deadline (form s') = "2024-06-14T00:30:00"
  /\ calendarDate s' = Some (now h) /\ showCalendar s' = false.
Proof. vm_compute. repeat split. Qed.

(** *** The calendar cursor *)

(** C8.  [setMonth] keeps the day of the month.  From 31 January 2024 the
    next-month button lands on 2 March 2024, two months on; from 31 March
    2024 the previous-month button lands on 2 March 2024, the same month. *)
Theorem navigateMonth_day_31_skips :
  let h := utc 0 in
  let jan31 := Date_parse h "2024-01-31T00:00:00" in
  let mar31 := Date_parse h "2024-03-31T00:00:00" in
  option_map (getMonth h) jan31 = Some 0
  /\ option_map toISOString (navigateMonth_date h next jan31)
     = Some "2024-03-02T00:00:00.000Z"
  /\ option_map (getMonth h) (navigateMonth_date h next jan31) = Some 2
  /\ option_map (getMonth h) mar31 = Some 2
  /\ option_map (getMonth h) (navigateMonth_date h prev mar31) = Some 2.
Proof. vm_compute. repeat split. Qed.

(** C3.  [new Date(y, m, d)] reads a year in 0..99 as 1900 + y.  With the
    date field at 0050-01-10 the cursor is in January of the year 50, whose
    first day is a Saturday (weekday 6); the grid is built from January
    1950 and has no leading placeholder. *)
Theorem days_year_50_no_placeholder :
  let h := utc 0 in
  let s0 := initial h in
  let s := commits h 2 (Some s0) (handleDateChange "0050-01-10" s0) in
  option_map toISOString (calendarDate s) = Some "0050-01-10T00:00:00.000Z"
  /\ option_map (fun t => (getFullYear h t, getMonth h t, getDate h t, getDay h t))
       (Date_parse h "0050-01-01T00:00:00") = Some (50, 0, 1, 6)
  /\ getFirstDayOfMonth h (calendarDate s) = Some 0
  /\ days h s = map (fun d => Some (Z.of_nat d)) (seq 1 31).
Proof. vm_compute. repeat split. Qed.

(** *** Where the handlers do name the intended day *)


Lemma truthy_app_cons (a : string) (c : ascii) (b : string) :
  truthy (a ++ String c b) = true.
Proof. destruct a; reflexivity. Qed.

Lemma date_string_truthy (y mo d : Z) : truthy (date_string y mo d) = true.
Proof. unfold date_string. apply (truthy_app_cons _ "-"). Qed.

Lemma or_else_truthy (a b : string) : truthy b = true -> truthy (or_else a b) = true.
Proof. unfold or_else. destruct (truthy a) eqn:E; auto. Qed.

Lemma DayFromYear_bound (y : Z) :
  -250001 <= y <= 250001 -> -92100000 <= DayFromYear y <= 92100000.
Proof. unfold DayFromYear. intros. Z.div_mod_to_equations. lia. Qed.

Lemma DaysBeforeMonth_bound (y mn : Z) : 0 <= DaysBeforeMonth y mn <= 335.
Proof.
  unfold DaysBeforeMonth. destruct (DaysInYear y =? 366);
    destruct mn as [|p|p]; try lia;
    do 4 (try destruct p as [p|p|]); lia.
Qed.

(** [MakeDay] away from the ends of the time range. *)
Lemma MakeDay_value (year month date : Z) :
  -250000 <= year <= 250000 -> -12 <= month <= 23 ->
  MakeDay year month date =
    Some (DayFromYear (year + month / 12)
          + DaysBeforeMonth (year + month / 12) (month mod 12) + date - 1).
Proof.
  intros Hy Hm. unfold MakeDay.
  assert (Hq : -1 <= month / 12 <= 1) by (Z.div_mod_to_equations; lia).
  pose proof (DayFromYear_bound (year + month / 12) ltac:(lia)) as Hb.
  pose proof (DaysBeforeMonth_bound (year + month / 12) (month mod 12)) as Hb'.
  destruct (Z.leb_spec (Z.abs ((DayFromYear (year + month / 12)
      + DaysBeforeMonth (year + month / 12) (month mod 12)) * msPerDay)) maxTime)
    as [_|Hbad]; [reflexivity|].
  unfold msPerDay, maxTime in Hbad. lia.
Qed.

Lemma toISOString_date (tv y mn d : Z) :
  civil y mn d tv -> 0 <= y <= 9999 ->
  split_head "T" (toISOString tv) = date_string y (mn + 1) d.
Proof.
  intros [Hy [Hm Hd]] Hr. unfold toISOString, year_string, date_string.
  rewrite Hy, Hm, Hd.
  replace ((0 <=? y) && (y <=? 9999)) with true
    by (symmetry; apply andb_true_iff; split; apply Z.leb_le; lia).
  rewrite split_head_app by (now apply digits_fixed_no_char).
  rewrite (split_head_app "T" "-") by reflexivity.
  rewrite split_head_app by (now apply digits_fixed_no_char).
  rewrite (split_head_app "T" "-") by reflexivity.
  rewrite split_head_app by (now apply digits_fixed_no_char).
  change ("T" ++ ?x)%string with (String "T" x).
  now rewrite split_head_sep, string_app_nil_r.
Qed.

Lemma div12_small (m : Z) : 0 <= m <= 11 -> m / 12 = 0 /\ m mod 12 = m.
Proof. intros. Z.div_mod_to_equations. lia. Qed.

(** [new Date(year, month, day)] for a year the constructor does not remap:
    local midnight of that day. *)
Lemma new_Date_ymd_value (h : Host) (year month day : Z) :
  100 <= year <= 250000 -> 0 <= month <= 11 -> -1 <= day <= 32 ->
  - msPerDay <= LocalTZA h <= msPerDay ->
  new_Date_ymd h year month day =
    Some ((DayFromYear year + DaysBeforeMonth year month + day - 1) * msPerDay
          - LocalTZA h).
Proof.
  intros Hy Hm Hd Hz. unfold new_Date_ymd.
  replace ((0 <=? year) && (year <=? 99)) with false
    by (symmetry; apply andb_false_iff; right; apply Z.leb_gt; lia).
  rewrite MakeDay_value by lia.
  destruct (div12_small month Hm) as [-> ->]. rewrite Z.add_0_r.
  cbn [MakeDate option_map TimeClip]. unfold UTC, MakeTime.
  pose proof (DayFromYear_bound year ltac:(lia)) as Hb.
  pose proof (DaysBeforeMonth_bound year month) as Hb'.
  match goal with |- (if ?c then _ else _) = _ => destruct c eqn:E end.
  - f_equal. lia.
  - apply Z.leb_gt in E. unfold msPerDay, msPerHour, msPerMinute, msPerSecond, maxTime in *. lia.
Qed.

(** At or west of Greenwich (and less than a day away) the calendar click
    names the day that was clicked. *)
Theorem handleDateSelect_west_of_Greenwich
    (h : Host) (day month year : Z) (s : State) :
  - msPerDay < LocalTZA h <= 0 ->
  100 <= year <= 9999 -> 0 <= month <= 11 ->
  1 <= day <= DaysInMonth year month ->
  let s' := handleDateSelect h day month year s in
  deadlineDate s' = date_string year (month + 1) day
  /\ deadline (form s') =
       (date_string year (month + 1) day ++ "T"
        ++ or_else (deadlineTime s) "00:00" ++ ":00")%string
  /\ deadlineTime s' = deadlineTime s
  /\ showCalendar s' = false.
Proof.
  intros Hz Hy Hm Hd. cbv zeta. unfold handleDateSelect.
  assert (Hdim : DaysInMonth year month <= 31).
  { unfold DaysInMonth. destruct (DaysInYear year =? 366);
      destruct month as [|p|p]; try lia; do 4 (try destruct p as [p|p|]); lia. }
  rewrite new_Date_ymd_value by lia.
  assert (Hc : civil year month day
            ((DayFromYear year + DaysBeforeMonth year month + day - 1) * msPerDay
             - LocalTZA h)).
  { replace (_ * msPerDay - LocalTZA h)
      with ((DayFromYear year + DaysBeforeMonth year month + day - 1) * msPerDay
            + (- LocalTZA h)) by lia.
    apply civil_of_day; lia. }
  rewrite (toISOString_date _ _ _ _ Hc) by lia.
  cbn [setShowCalendar showCalendar deadlineDate deadlineTime form].
  rewrite updateDeadline_deadline, updateDeadline_date, updateDeadline_time.
  rewrite date_string_truthy, or_else_truthy by reflexivity.
  repeat split.
Qed.

Lemma InLeapYear_cases (t : Z) : InLeapYear t = 0 \/ InLeapYear t = 1.
Proof. unfold InLeapYear. destruct (_ =? 366); auto. Qed.

Lemma DayWithinYear_nonneg (t : Z) : 0 <= DayWithinYear t.
Proof.
  unfold DayWithinYear, YearFromTime.
  pose proof (YearFromDay_spec (Day t)). lia.
Qed.

Lemma DateFromTime_pos (t : Z) : 1 <= DateFromTime t.
Proof.
  pose proof (DayWithinYear_nonneg t) as Hd.
  pose proof (InLeapYear_cases t) as Hl.
  unfold DateFromTime, MonthFromTime.
  set (d := DayWithinYear t) in *. set (l := InLeapYear t) in *.
  repeat match goal with
         | |- context [?a <? ?b] => destruct (Z.ltb_spec a b)
         end; lia.
Qed.

Lemma TimeWithinDay_range (t : Z) : 0 <= TimeWithinDay t < msPerDay.
Proof. unfold TimeWithinDay, msPerDay. Z.div_mod_to_equations. lia. Qed.

(** The civil fields of a time value depend on its day number only. *)
Lemma civil_same_day (y mn d a b : Z) : Day a = Day b -> civil y mn d a -> civil y mn d b.
Proof.
  unfold civil, DateFromTime, MonthFromTime, DayWithinYear, InLeapYear, YearFromTime.
  now intros ->.
Qed.

Lemma LocalTime_UTC (h : Host) (t : Z) : LocalTime h (UTC h t) = t.
Proof. unfold LocalTime, UTC. lia. Qed.

Lemma DaysInMonth_range (y mn : Z) : 28 <= DaysInMonth y mn <= 31.
Proof.
  unfold DaysInMonth. destruct (DaysInYear y =? 366);
    destruct mn as [|p|p]; try lia; do 4 (try destruct p as [p|p|]); lia.
Qed.




(** Month navigation writes the cursor and nothing else. *)
Lemma navigateMonth_frame (h : Host) (dir : Direction) (s : State) :
  navigateMonth h dir s =
    setCalendarDate (navigateMonth_date h dir (calendarDate s)) s
  /\ form (navigateMonth h dir s) = form s
  /\ deadlineDate (navigateMonth h dir s) = deadlineDate s
  /\ deadlineTime (navigateMonth h dir s) = deadlineTime s.
Proof. repeat split. Qed.

(** *** The calendar grid *)

Lemma last_day_of_month (y m : Z) :
  0 <= m <= 11 ->
  DayFromYear (y + (m + 1) / 12)
    + DaysBeforeMonth (y + (m + 1) / 12) ((m + 1) mod 12) + 0 - 1
  = DayFromYear y + DaysBeforeMonth y m + DaysInMonth y m - 1.
Proof.
  intros Hm. pose proof (DaysInMonth_sum y m Hm) as Hs.
  destruct (Z.eqb_spec m 11) as [He | Hne].
  - subst m. change ((11 + 1) / 12) with 1. change ((11 + 1) mod 12) with 0.
    rewrite DayFromYear_succ.
    replace (DaysBeforeMonth (y + 1) 0) with 0 by reflexivity. lia.
  - assert (Hq : (m + 1) / 12 = 0 /\ (m + 1) mod 12 = m + 1)
      by (Z.div_mod_to_equations; lia).
    destruct Hq as [-> ->]. rewrite !Z.add_0_r.
    try rewrite (proj2 (Z.eqb_neq m 11) Hne) in Hs. cbv iota in Hs. lia.
Qed.

Lemma TimeClip_small (t : Z) :
  -8000000000000000 <= t <= 8000000000000000 -> TimeClip (Some t) = Some t.
Proof.
  intros H. unfold TimeClip.
  destruct (Z.leb_spec (Z.abs t) maxTime) as [_|Hbad]; [reflexivity|].
  unfold maxTime in Hbad. lia.
Qed.

(** For a cursor in a year from 100 on, [getDaysInMonth] is the day count of
    the visible month and [getFirstDayOfMonth] the weekday of its first
    day. *)
Lemma calendar_month_values (h : Host) (tv : Z) :
  - msPerDay <= LocalTZA h <= msPerDay ->
  100 <= getFullYear h tv <= 250000 ->
  let y := getFullYear h tv in
  let m := getMonth h tv in
  getDaysInMonth h (Some tv) = Some (DaysInMonth y m)
  /\ getFirstDayOfMonth h (Some tv)
     = Some ((DayFromYear y + DaysBeforeMonth y m + 4) mod 7)
  /\ civil y m 1 ((DayFromYear y + DaysBeforeMonth y m) * msPerDay).
Proof.
  intros Hz Hy y m.
  assert (Hm : 0 <= m <= 11) by apply MonthFromTime_range.
  pose proof (DaysInMonth_range y m) as Hr.
  pose proof (DayFromYear_bound y ltac:(subst y; lia)) as Hb.
  pose proof (DaysBeforeMonth_bound y m) as Hb'.
  assert (Hfirst : civil y m 1 ((DayFromYear y + DaysBeforeMonth y m) * msPerDay)).
  { replace ((DayFromYear y + DaysBeforeMonth y m) * msPerDay)
      with ((DayFromYear y + DaysBeforeMonth y m + 1 - 1) * msPerDay + 0) by lia.
    apply civil_of_day; unfold msPerDay; lia. }
  split; [|split]; [| |exact Hfirst].
  - cbn [getDaysInMonth]. fold y m. unfold new_Date_ymd.
    replace ((0 <=? y) && (y <=? 99)) with false
      by (symmetry; apply andb_false_iff; right; apply Z.leb_gt; subst y; lia).
    rewrite MakeDay_value by (subst y; lia).
    rewrite (last_day_of_month y m Hm).
    cbn [MakeDate option_map]. unfold MakeTime.
    rewrite TimeClip_small by (unfold UTC, msPerDay, msPerHour, msPerMinute, msPerSecond in *; lia).
    cbn [option_map]. f_equal. unfold getDate. rewrite LocalTime_UTC.
    assert (Hc : civil y m (DaysInMonth y m)
              ((DayFromYear y + DaysBeforeMonth y m + DaysInMonth y m - 1) * msPerDay + 0))
      by (apply civil_of_day; unfold msPerDay; lia).
    destruct Hc as [_ [_ Hd]].
    replace (0 * msPerHour + 0 * msPerMinute + 0 * msPerSecond + 0) with 0 by reflexivity.
    exact Hd.
  - cbn [getFirstDayOfMonth]. fold y m.
    rewrite new_Date_ymd_value by (subst y; lia).
    cbn [option_map]. f_equal. unfold getDay, LocalTime, WeekDay.
    replace ((DayFromYear y + DaysBeforeMonth y m + 1 - 1) * msPerDay
             - LocalTZA h + LocalTZA h)
      with ((DayFromYear y + DaysBeforeMonth y m) * msPerDay + 0) by lia.
    rewrite Day_of_day_time by (unfold msPerDay; lia). reflexivity.
Qed.

(** X18.  The grid of a cursor in a year from 100 on: as many placeholders
    as the weekday index of day 1 of the visible month, then the days 1..N
    of the month. *)
Theorem days_grid (h : Host) (s : State) (tv : Z) :
  calendarDate s = Some tv ->
  - msPerDay <= LocalTZA h <= msPerDay ->
  100 <= getFullYear h tv <= 250000 ->
  let y := getFullYear h tv in
  let m := getMonth h tv in
  days h s =
    (repeat None (Z.to_nat ((DayFromYear y + DaysBeforeMonth y m + 4) mod 7))
     ++ map (fun d => Some (Z.of_nat d)) (seq 1 (Z.to_nat (DaysInMonth y m))))%list
  /\ WeekDay ((DayFromYear y + DaysBeforeMonth y m) * msPerDay)
     = (DayFromYear y + DaysBeforeMonth y m + 4) mod 7
  /\ civil y m 1 ((DayFromYear y + DaysBeforeMonth y m) * msPerDay).
Proof.
  intros Hc Hz Hy y m.
  destruct (calendar_month_values h tv Hz Hy) as [Hn [Hk Hf]].
  fold y m in Hn, Hk, Hf.
  unfold days. rewrite Hc, Hn, Hk. split; [reflexivity|]. split; [|exact Hf].
  unfold WeekDay.
  replace ((DayFromYear y + DaysBeforeMonth y m) * msPerDay)
    with ((DayFromYear y + DaysBeforeMonth y m) * msPerDay + 0) by lia.
  rewrite Day_of_day_time by (unfold msPerDay; lia). reflexivity.
Qed.

(** *** The deadline read back *)

Lemma substring_prefix (a r : string) :
  String.substring 0 (String.length a) (a ++ r) = a.
Proof.
  induction a as [|x a IH]; simpl.
  - destruct r; reflexivity.
  - now rewrite IH.
Qed.

Lemma time_string_length (hh mi : Z) : String.length (time_string hh mi) = 5%nat.
Proof.
  unfold time_string.
  now rewrite !string_length_app, !digits_fixed_length.
Qed.

(** The first five characters of [toTimeString] are the local [HH:mm]. *)
Lemma toTimeString_prefix (h : Host) (tv : Z) :
  slice0 5 (toTimeString h tv) = time_string (getHours h tv) (getMinutes h tv).
Proof.
  unfold slice0, toTimeString, getHours, getMinutes.
  set (t := LocalTime h tv).
  rewrite <- (time_string_length (HourFromTime t) (MinFromTime t)).
  unfold time_string at 2.
  rewrite <- (string_app_assoc ":" (digits_fixed 2 (MinFromTime t))).
  rewrite <- (string_app_assoc (digits_fixed 2 (HourFromTime t))
                (":" ++ digits_fixed 2 (MinFromTime t))).
  apply substring_prefix.
Qed.

Lemma time_of_day_fields (dn hh mi ss : Z) :
  0 <= hh <= 23 -> 0 <= mi <= 59 -> 0 <= ss <= 59 ->
  HourFromTime (dn * msPerDay + MakeTime hh mi ss 0) = hh
  /\ MinFromTime (dn * msPerDay + MakeTime hh mi ss 0) = mi
  /\ 0 <= MakeTime hh mi ss 0 < msPerDay.
Proof.
  unfold HourFromTime, MinFromTime, MakeTime, msPerDay, msPerHour, msPerMinute,
    msPerSecond.
  intros. repeat split; Z.div_mod_to_equations; lia.
Qed.

Lemma expect_sep (c : ascii) (x : string) :
  expect c (list_ascii_of_string (String c "" ++ x)) = Some (list_ascii_of_string x).
Proof. simpl. now rewrite Ascii.eqb_refl. Qed.

(** The fields [Date.parse] reads off the deadline [updateDeadline] builds
    from a valid date and time. *)
Lemma parse_fields_deadline (y mo d hh mi : Z) :
  valid_date y mo d -> valid_time hh mi ->
  parse_fields (date_string y mo d ++ "T" ++ time_string hh mi ++ ":00")
  = Some (y, mo, d, hh, mi, 0).
Proof.
  intros [Hy [Hmo Hd]] [Hh Hmi].
  pose proof (DaysInMonth_range y (mo - 1)) as Hr.
  unfold parse_fields, date_string, time_string.
  rewrite !string_app_assoc.
  rewrite take_digits_fixed by (simpl; lia). cbv iota. rewrite expect_sep.
  rewrite take_digits_fixed by (simpl; lia). cbv iota. rewrite expect_sep.
  rewrite take_digits_fixed by (simpl; lia). cbv iota. rewrite expect_sep.
  rewrite take_digits_fixed by (simpl; lia). cbv iota. rewrite expect_sep.
  rewrite take_digits_fixed by (simpl; lia).
  reflexivity.
Qed.

Lemma time_string_truthy (hh mi : Z) : truthy (time_string hh mi) = true.
Proof. unfold time_string. apply (truthy_app_cons _ ":"). Qed.

Lemma fields_in_range_valid (y mo d hh mi : Z) :
  valid_date y mo d -> valid_time hh mi ->
  fields_in_range (y, mo, d, hh, mi, 0) = true.
Proof.
  intros [Hy [Hmo Hd]] [Hh Hmi]. unfold fields_in_range.
  repeat (apply andb_true_iff; split); apply Z.leb_le; lia.
Qed.

(** The time value [Date.parse] gives the deadline of a valid date and time:
    that local time. *)
Lemma Date_parse_deadline (h : Host) (y mo d hh mi : Z) :
  valid_date y mo d -> valid_time hh mi ->
  - msPerDay <= LocalTZA h <= msPerDay ->
  Date_parse h (date_string y mo d ++ "T" ++ time_string hh mi ++ ":00")
  = Some ((DayFromYear y + DaysBeforeMonth y (mo - 1) + d - 1) * msPerDay
          + MakeTime hh mi 0 0 - LocalTZA h).
Proof.
  intros Hvd Hvt Hz. unfold Date_parse.
  rewrite (parse_fields_deadline _ _ _ _ _ Hvd Hvt).
  rewrite (fields_in_range_valid _ _ _ _ _ Hvd Hvt).
  destruct Hvd as [Hy [Hmo Hd]].
  rewrite MakeDay_value by lia.
  destruct (div12_small (mo - 1) ltac:(lia)) as [-> ->]. rewrite Z.add_0_r.
  cbn [MakeDate option_map]. unfold UTC.
  pose proof (DayFromYear_bound y ltac:(lia)) as Hb.
  pose proof (DaysBeforeMonth_bound y (mo - 1)) as Hb'.
  pose proof (DaysInMonth_range y (mo - 1)) as Hr.
  destruct (time_of_day_fields 0 hh mi 0) as [_ [_ Ht]]; try lia; [apply Hvt ..|].
  apply TimeClip_small. unfold msPerDay in *. lia.
Qed.

(** The pair of fragments comes back from the deadline when the local time
    of day, moved to UTC, stays on the same day; in a UTC host always. *)
Theorem roundtrip_same_UTC_day (h : Host) (y mo d hh mi : Z) (s : State) :
  valid_date y mo d -> valid_time hh mi ->
  0 <= MakeTime hh mi 0 0 - LocalTZA h < msPerDay ->
  let s1 := updateDeadline (date_string y mo d) (time_string hh mi) s in
  let s2 := syncDeadline h s1 s1 in
  deadline (form s1) = (date_string y mo d ++ "T" ++ time_string hh mi ++ ":00")%string
  /\ deadlineDate s2 = date_string y mo d
  /\ deadlineTime s2 = time_string hh mi.
Proof.
  intros Hvd Hvt Hz. cbv zeta.
  destruct (time_of_day_fields (DayFromYear y + DaysBeforeMonth y (mo - 1) + d - 1)
              hh mi 0) as [Hhh [Hmi Ht]]; try lia; [apply Hvt ..|].
  assert (Hdl : deadline (form (updateDeadline (date_string y mo d)
                                  (time_string hh mi) s))
                = (date_string y mo d ++ "T" ++ time_string hh mi ++ ":00")%string).
  { now rewrite updateDeadline_deadline, date_string_truthy, time_string_truthy. }
  split; [exact Hdl|].
  unfold syncDeadline. rewrite Hdl.
  replace (truthy _) with true
    by (symmetry; unfold date_string; rewrite !string_app_assoc;
        apply (truthy_app_cons _ "-")).
  rewrite (Date_parse_deadline h _ _ _ _ _ Hvd Hvt) by lia.
  cbn [deadlineDate deadlineTime setSelectedMinute setSelectedHour
       setDeadlineTime setDeadlineDate].
  split.
  - rewrite (toISOString_date _ y (mo - 1) d).
    + now replace (mo - 1 + 1) with mo by lia.
    + destruct Hvd as [Hy [Hmo Hd]].
      replace (_ + MakeTime hh mi 0 0 - LocalTZA h)
        with ((DayFromYear y + DaysBeforeMonth y (mo - 1) + d - 1) * msPerDay
              + (MakeTime hh mi 0 0 - LocalTZA h)) by lia.
      apply civil_of_day; lia.
    + apply Hvd.
  - rewrite toTimeString_prefix. unfold getHours, getMinutes, LocalTime.
    replace (_ - LocalTZA h + LocalTZA h)
      with ((DayFromYear y + DaysBeforeMonth y (mo - 1) + d - 1) * msPerDay
            + MakeTime hh mi 0 0) by lia.
    now rewrite Hhh, Hmi.
Qed.

(** In a host on UTC the round trip holds for every valid date and time. *)
Corollary roundtrip_UTC (h : Host) (y mo d hh mi : Z) (s : State) :
  LocalTZA h = 0 -> valid_date y mo d -> valid_time hh mi ->
  let s1 := updateDeadline (date_string y mo d) (time_string hh mi) s in
  let s2 := syncDeadline h s1 s1 in
  deadlineDate s2 = date_string y mo d /\ deadlineTime s2 = time_string hh mi.
Proof.
  intros Hz Hvd Hvt.
  destruct (time_of_day_fields 0 hh mi 0) as [_ [_ Ht]]; try lia; [apply Hvt ..|].
  apply (roundtrip_same_UTC_day h y mo d hh mi s Hvd Hvt). lia.
Qed.

(** X20.  Today names the local date whenever the local day is also the
    UTC day. *)
Theorem selectToday_same_UTC_day (h : Host) (s : State) :
  Day (now h) = Day (LocalTime h (now h)) ->
  0 <= getFullYear h (now h) <= 9999 ->
  let s' := selectToday h s in
  let date :=
    date_string (getFullYear h (now h)) (getMonth h (now h) + 1) (getDate h (now h)) in
  let time := time_string (getHours h (now h)) (getMinutes h (now h)) in
  deadlineDate s' = date /\ deadlineTime s' = time
  /\ deadline (form s') = (date ++ "T" ++ time ++ ":00")%string
  /\ calendarDate s' = Some (now h) /\ showCalendar s' = false.
Proof.
  intros Hday Hy. cbv zeta. unfold selectToday, new_Date_now.
  assert (Hc : civil (getFullYear h (now h)) (getMonth h (now h)) (getDate h (now h))
                 (now h)).
  { apply (civil_same_day _ _ _ (LocalTime h (now h))); [now symmetry|].
    repeat split. }
  rewrite (toISOString_date _ _ _ _ Hc Hy), toTimeString_prefix.
  cbn [setShowCalendar setCalendarDate deadlineDate deadlineTime form
       calendarDate showCalendar].
  rewrite updateDeadline_deadline, updateDeadline_date, updateDeadline_time.
  rewrite date_string_truthy, time_string_truthy.
  repeat split.
Qed.

End AppFacts.

(* ================================================================== *)
(** ** Further properties of the component                             *)
(* ================================================================== *)

Module AppExtra.
Import JS JSDate App AppView JSFacts JSDateFacts AppFacts.

(** *** Time of day: formatting and reading back *)

Lemma padStart_two_digits (n : Z) :
  0 <= n <= 99 -> padStart 2 "0" (toString n) = digits_fixed 2 n.
Proof.
  intros Hn.
  assert (Hall : forallb (fun k => String.eqb (padStart 2 "0" (toString (Z.of_nat k)))
                                     (digits_fixed 2 (Z.of_nat k)))
                         (seq 0 100) = true) by (vm_compute; reflexivity).
  rewrite forallb_forall in Hall.
  specialize (Hall (Z.to_nat n)).
  rewrite Z2Nat.id in Hall by lia.
  apply String.eqb_eq, Hall, in_seq. lia.
Qed.

Lemma HourFromTime_range (t : Z) : 0 <= HourFromTime t <= 23.
Proof. unfold HourFromTime. pose proof (Z.mod_pos_bound (t / msPerHour) 24). lia. Qed.

Lemma MinFromTime_range (t : Z) : 0 <= MinFromTime t <= 59.
Proof. unfold MinFromTime. pose proof (Z.mod_pos_bound (t / msPerMinute) 60). lia. Qed.

(** The fragment [handleTimeSelect] writes for an hour and a minute of at
    most two digits. *)
Lemma handleTimeSelect_fragment (hour minute : Z) (s : State) :
  0 <= hour <= 99 -> 0 <= minute <= 99 ->
  deadlineTime (handleTimeSelect hour minute s) = time_string hour minute.
Proof.
  intros Hh Hm. unfold handleTimeSelect.
  cbn [setShowTimePicker deadlineTime]. rewrite updateDeadline_time.
  cbn [setDeadlineTime deadlineTime].
  now rewrite !padStart_two_digits.
Qed.

(** X1.  Confirming an hour 0..23 and a minute 0..59 writes the zero-padded
    [HH:mm] into the time fragment, recomputes the deadline from the date
    fragment (empty when there is none), leaves the date fragment alone and
    closes the time picker. *)
Theorem handleTimeSelect_in_range (hour minute : Z) (s : State) :
  valid_time hour minute ->
  let s' := handleTimeSelect hour minute s in
  deadlineTime s' = time_string hour minute
  /\ deadline (form s') =
       (if truthy (deadlineDate s)
        then deadlineDate s ++ "T" ++ time_string hour minute ++ ":00"
        else "")%string
  /\ deadlineDate s' = deadlineDate s
  /\ showTimePicker s' = false.
Proof.
  intros [Hh Hm]. cbv zeta.
  split; [apply handleTimeSelect_fragment; lia|].
  unfold handleTimeSelect.
  cbn [setShowTimePicker deadlineDate form showTimePicker].
  rewrite updateDeadline_deadline, updateDeadline_date.
  rewrite !padStart_two_digits by lia.
  fold (time_string hour minute). rewrite time_string_truthy.
  cbn [setDeadlineTime deadlineDate].
  destruct (truthy (deadlineDate s)); repeat split.
Qed.

Lemma handleTimeSelect_in_range_witness :
  valid_time 9 5 /\
  deadlineTime (handleTimeSelect 9 5 (initial (utc 0))) = time_string 9 5.
Proof.
  split.
  - unfold valid_time. lia.
  - apply (handleTimeSelect_in_range 9 5 (initial (utc 0))).
    unfold valid_time. lia.
Defined.

(** *** The effect on [deadlineTime] *)

Lemma split_no_sep (c : ascii) (a : string) :
  no_char c a = true -> split c a = [a].
Proof.
  induction a as [|x a IH]; simpl; intros H; [reflexivity|].
  apply andb_prop in H. destruct H as [Hx Ha].
  apply negb_true_iff in Hx. now rewrite Hx, (IH Ha).
Qed.

Lemma split_app_sep (c : ascii) (a b : string) :
  no_char c a = true -> split c (a ++ String c b) = a :: split c b.
Proof.
  induction a as [|x a IH]; simpl; intros H.
  - now rewrite Ascii.eqb_refl.
  - apply andb_prop in H. destruct H as [Hx Ha].
    apply negb_true_iff in Hx. now rewrite Hx, (IH Ha).
Qed.

Lemma Number_digits_fixed (w : nat) (n : Z) :
  0 <= n < 10 ^ Z.of_nat w -> Number (digits_fixed w n) = Some n.
Proof.
  intros Hn. unfold Number, all_digits, digits_value.
  now rewrite digits_fixed_all_digits, digits_fixed_value.
Qed.

(** X2.  The effect on [deadlineTime] reads an [HH:mm] value back into the
    staged selection: hour and minute are the numbers the two fields name,
    and nothing else is written. *)
Theorem syncTimePicker_reads_back (hh mi : Z) (r s : State) :
  0 <= hh <= 99 -> 0 <= mi <= 99 ->
  deadlineTime r = time_string hh mi ->
  syncTimePicker r s = setSelectedMinute mi (setSelectedHour hh s).
Proof.
  intros Hh Hm Ht. unfold syncTimePicker. rewrite Ht, time_string_truthy.
  unfold time_string.
  change (":" ++ digits_fixed 2 mi)%string with (String ":" (digits_fixed 2 mi)).
  rewrite split_app_sep by (now apply digits_fixed_no_char).
  rewrite split_no_sep by (now apply digits_fixed_no_char).
  cbn [Number_at nth_error].
  now rewrite !Number_digits_fixed by (simpl; lia).
Qed.

Lemma syncTimePicker_reads_back_witness :
  let r := handleTimeChange "18:30" (initial (utc 0)) in
  deadlineTime r = time_string 18 30 /\
  syncTimePicker r r = setSelectedMinute 30 (setSelectedHour 18 r).
Proof.
  cbv zeta. split.
  - reflexivity.
  - apply (syncTimePicker_reads_back 18 30); [lia | lia | reflexivity].
Defined.

(** X3.  A time fragment without a colon stages nothing: the missing second
    piece reads as NaN and the guard skips both setters. *)
Theorem syncTimePicker_no_colon (r s : State) :
  no_char ":" (deadlineTime r) = true -> syncTimePicker r s = s.
Proof.
  intros Hc. unfold syncTimePicker.
  destruct (truthy (deadlineTime r)); [|reflexivity].
  rewrite (split_no_sep _ _ Hc). cbn [Number_at nth_error].
  destruct (Number (deadlineTime r)); reflexivity.
Qed.

Lemma syncTimePicker_no_colon_witness :
  let r := handleTimeChange "1830" (initial (utc 0)) in
  no_char ":" (deadlineTime r) = true /\ syncTimePicker r r = r.
Proof.
  cbv zeta. split.
  - reflexivity.
  - apply syncTimePicker_no_colon. reflexivity.
Defined.

(** X4.  Now writes the local hour and minute of the current time, zero
    padded: the same five characters Today takes from [toTimeString]. *)
Theorem selectCurrentTime_local_time (h : Host) (s : State) :
  deadlineTime (selectCurrentTime h s)
    = time_string (getHours h (now h)) (getMinutes h (now h))
  /\ deadlineTime (selectCurrentTime h s) = deadlineTime (selectToday h s)
  /\ deadlineDate (selectCurrentTime h s) = deadlineDate s
  /\ showTimePicker (selectCurrentTime h s) = false.
Proof.
  pose proof (HourFromTime_range (LocalTime h (now h))) as Hh.
  pose proof (MinFromTime_range (LocalTime h (now h))) as Hm.
  unfold selectCurrentTime.
  assert (Ht : deadlineTime (handleTimeSelect (getHours h (now h))
                               (getMinutes h (now h)) s)
               = time_string (getHours h (now h)) (getMinutes h (now h)))
    by (apply handleTimeSelect_fragment; unfold getHours, getMinutes; lia).
  split; [exact Ht|]. split; [|split].
  - rewrite Ht. unfold selectToday, new_Date_now.
    cbn [setShowCalendar setCalendarDate deadlineTime].
    rewrite updateDeadline_time. cbn [setDeadlineTime deadlineTime].
    now rewrite toTimeString_prefix.
  - unfold handleTimeSelect. cbn [setShowTimePicker deadlineDate].
    now rewrite updateDeadline_date.
  - reflexivity.
Qed.


(** *** Popups *)

(** X5.  A click never opens a popup (no flag is set that was not set
    before) and writes nothing but the two visibility flags; a second
    identical click changes nothing more. *)
Theorem handleClickOutside_only_closes (t : ClickTarget) (s : State) :
  let s' := handleClickOutside t s in
  s' = setShowTimePicker (showTimePicker s') (setShowCalendar (showCalendar s') s)
  /\ showCalendar s' && negb (showCalendar s) = false
  /\ showTimePicker s' && negb (showTimePicker s) = false
  /\ handleClickOutside t s' = s'.
Proof.
  cbv zeta. unfold handleClickOutside. destruct s as [f dd dt sm ct sc stp cd sh smi].
  cbn [showCalendar showTimePicker].
  destruct sc, stp, (outside_both (calendarRef t) (calendarButtonRef t)),
    (outside_both (timePickerRef t) (timePickerButtonRef t));
    cbn; repeat split; auto.
Qed.

(** X6.  A click inside the calendar popup or on its button leaves the
    calendar as it is, and the same for the time picker; a click outside a
    mounted popup and its button closes it. *)
Theorem handleClickOutside_inside_outside (t : ClickTarget) (s : State) :
  ((calendarRef t = Some true \/ calendarButtonRef t = Some true) ->
     showCalendar (handleClickOutside t s) = showCalendar s)
  /\ ((timePickerRef t = Some true \/ timePickerButtonRef t = Some true) ->
     showTimePicker (handleClickOutside t s) = showTimePicker s)
  /\ (calendarRef t = Some false -> calendarButtonRef t = Some false ->
     showCalendar (handleClickOutside t s) = false)
  /\ (timePickerRef t = Some false -> timePickerButtonRef t = Some false ->
     showTimePicker (handleClickOutside t s) = false).
Proof.
  unfold handleClickOutside. destruct s as [f dd dt sm ct sc stp cd sh smi].
  cbn [showCalendar showTimePicker].
  repeat split.
  - intros [H | H]; rewrite H; destruct (calendarRef t) as [[|]|],
      (calendarButtonRef t) as [[|]|], sc, stp,
      (outside_both (timePickerRef t) (timePickerButtonRef t));
      try discriminate; reflexivity.
  - intros [H | H]; rewrite H; destruct (timePickerRef t) as [[|]|],
      (timePickerButtonRef t) as [[|]|], sc, stp,
      (outside_both (calendarRef t) (calendarButtonRef t));
      try discriminate; reflexivity.
  - intros -> ->. destruct sc, stp,
      (outside_both (timePickerRef t) (timePickerButtonRef t)); reflexivity.
  - intros -> ->. destruct sc, stp,
      (outside_both (calendarRef t) (calendarButtonRef t)); reflexivity.
Qed.

Lemma handleClickOutside_inside_outside_witness :
  let t := mkClickTarget (Some false) (Some false) None (Some false) in
  let s := toggleCalendar (initial (utc 0)) in
  showCalendar s = true /\ showCalendar (handleClickOutside t s) = false.
Proof.
  cbv zeta. split.
  - reflexivity.
  - apply (proj1 (proj2 (proj2 (handleClickOutside_inside_outside
             (mkClickTarget (Some false) (Some false) None (Some false))
             (toggleCalendar (initial (utc 0))))))); reflexivity.
Defined.

(** *** Edits that leave the deadline alone *)

Lemma commits_no_change (h : Host) (n : nat) (s s' : State) :
  deadline (form s) = deadline (form s') ->
  deadlineTime s = deadlineTime s' ->
  commits h n (Some s) s' = s'.
Proof. apply commits_same_deps. Qed.

(** X7.  Editing the title, the description or the status writes that one
    field of the draft: the deadline, both fragments and every other cell
    keep their values, and no synchronisation effect runs afterwards. *)
Theorem handleChange_leaves_deadline (h : Host) (name value : string)
    (s : State) (n : nat) :
  name <> "deadline" ->
  let s' := handleChange name value s in
  deadline (form s') = deadline (form s)
  /\ s' = setForm (form s') s
  /\ commits h n (Some s) s' = s'.
Proof.
  intros Hn. cbv zeta.
  assert (Hd : deadline (form (handleChange name value s)) = deadline (form s)
               /\ handleChange name value s
                  = setForm (form (handleChange name value s)) s).
  { unfold handleChange.
    destruct (String.eqb name "title"); [split; reflexivity|].
    destruct (String.eqb name "description"); [split; reflexivity|].
    destruct (String.eqb name "status"); [split; reflexivity|].
    destruct (String.eqb_spec name "deadline"); [contradiction|].
    split; [reflexivity|]. destruct s; reflexivity. }
  destruct Hd as [Hd Hf]. split; [exact Hd|]. split; [exact Hf|].
  apply commits_no_change; [now symmetry|].
  rewrite Hf. reflexivity.
Qed.

Lemma handleChange_leaves_deadline_witness :
  let s := handleDateChange "2024-12-31" (initial (utc 0)) in
  "title" <> "deadline" /\
  deadline (form (handleChange "title" "Draft brief" s)) = deadline (form s).
Proof.
  cbv zeta. split.
  - discriminate.
  - apply (handleChange_leaves_deadline (utc 0) "title" "Draft brief"
             (handleDateChange "2024-12-31" (initial (utc 0))) 1).
    discriminate.
Defined.

(** X8.  Staging an hour or a minute in the time picker touches neither the
    time fragment nor the deadline and triggers no effect; Confirm then
    commits exactly the staged pair. *)
Theorem staging_commits_on_confirm (h : Host) (i j : Z) (s : State) (n : nat) :
  valid_time i j ->
  let staged := pickMinute j (pickHour i s) in
  deadlineTime staged = deadlineTime s
  /\ form staged = form s
  /\ commits h n (Some s) staged = staged
  /\ deadlineTime (confirmTime staged) = time_string i j.
Proof.
  intros [Hi Hj]. cbv zeta. repeat split.
  - now apply commits_no_change.
  - unfold confirmTime, pickMinute, pickHour.
    cbn [selectedHour selectedMinute setSelectedMinute setSelectedHour].
    apply handleTimeSelect_fragment; lia.
Qed.

Lemma staging_commits_on_confirm_witness :
  valid_time 18 30 /\
  deadlineTime (confirmTime (pickMinute 30 (pickHour 18 (initial (utc 0)))))
    = time_string 18 30.
Proof.
  split.
  - unfold valid_time. lia.
  - apply (staging_commits_on_confirm (utc 0) 18 30 (initial (utc 0)) 1).
    unfold valid_time. lia.
Defined.

(** *** After a submission *)

(** X9.  After a successful submission the modal shows; the effects that
    follow the reset change nothing, so the calendar cursor and the staged
    hour and minute survive it; closing the modal hides it, drops the created
    task and leaves the emptied draft. *)
Theorem submit_reset_then_close (h : Host) (data : TaskResponse.t)
    (p : option State) (s : State) (n : nat) :
  let s1 := fst (submitForm (fun _ => Resolved data) s) in
  modalVisible s1 = true
  /\ commits h n p s1 = s1
  /\ (calendarDate s1, selectedHour s1, selectedMinute s1)
     = (calendarDate s, selectedHour s, selectedMinute s)
  /\ modalVisible (closeModal s1) = false
  /\ createdTask (closeModal s1) = None
  /\ form (closeModal s1) = emptyForm
  /\ (deadlineDate (closeModal s1), deadlineTime (closeModal s1)) = ("", "").
Proof.
  cbv zeta. repeat split.
  set (s1 := fst _).
  assert (Hq : forall q, runEffects h q s1 = s1).
  { intros q. unfold runEffects, syncDeadline, syncTimePicker, changed, s1.
    destruct q as [q|]; cbn [submitForm fst setDeadlineTime setDeadlineDate
      setForm form deadline deadlineTime truthy];
      repeat match goal with |- context [negb ?b] => destruct (negb b) end;
      reflexivity. }
  revert p. induction n as [|n IH]; intros p; simpl; [reflexivity|].
  rewrite Hq. apply IH.
Qed.

(** A rejected submission leaves the modal as it was. *)
Lemma submit_rejected_modal (err : string) (s : State) :
  modalVisible (fst (submitForm (fun _ => Rejected err) s)) = modalVisible s.
Proof. reflexivity. Qed.


(** *** The effect on [form.deadline], zone by zone *)

(** What the effect queues for the deadline of a valid date and time: cursor,
    staged hour and minute and time fragment come from local time, the date
    fragment from the UTC day of that instant. *)
Lemma syncDeadline_valid (h : Host) (y mo d hh mi : Z) (r s : State) :
  valid_date y mo d -> valid_time hh mi ->
  - msPerDay <= LocalTZA h <= msPerDay ->
  deadline (form r) = (date_string y mo d ++ "T" ++ time_string hh mi ++ ":00")%string ->
  let tv := (DayFromYear y + DaysBeforeMonth y (mo - 1) + d - 1) * msPerDay
            + MakeTime hh mi 0 0 - LocalTZA h in
  syncDeadline h r s =
    setSelectedMinute mi
      (setSelectedHour hh
         (setDeadlineTime (time_string hh mi)
            (setDeadlineDate (split_head "T" (toISOString tv))
               (setCalendarDate (Some tv) s)))).
Proof.
  intros Hvd Hvt Hz Hdl. cbv zeta. unfold syncDeadline. rewrite Hdl.
  replace (truthy _) with true
    by (symmetry; unfold date_string; rewrite !string_app_assoc;
        apply (truthy_app_cons _ "-")).
  rewrite (Date_parse_deadline h _ _ _ _ _ Hvd Hvt Hz).
  destruct (time_of_day_fields (DayFromYear y + DaysBeforeMonth y (mo - 1) + d - 1)
              hh mi 0) as [Hhh [Hmi Ht]]; try lia; [apply Hvt ..|].
  rewrite toTimeString_prefix. unfold getHours, getMinutes, LocalTime.
  replace (_ - LocalTZA h + LocalTZA h)
    with ((DayFromYear y + DaysBeforeMonth y (mo - 1) + d - 1) * msPerDay
          + MakeTime hh mi 0 0) by lia.
  now rewrite Hhh, Hmi.
Qed.

(** X10.  In every zone (offset of at most a day) the effect on a deadline
    built from a valid date and time moves the calendar cursor to an instant
    whose local year, month and day are the deadline's, stages the
    deadline's hour and minute and writes its [HH:mm] into the time
    fragment. *)
Theorem syncDeadline_cursor_and_time (h : Host) (y mo d hh mi : Z) (r s : State) :
  valid_date y mo d -> valid_time hh mi ->
  - msPerDay <= LocalTZA h <= msPerDay ->
  deadline (form r) = (date_string y mo d ++ "T" ++ time_string hh mi ++ ":00")%string ->
  let s' := syncDeadline h r s in
  exists tv, calendarDate s' = Some tv
    /\ (getFullYear h tv, getMonth h tv, getDate h tv) = (y, mo - 1, d)
    /\ (getHours h tv, getMinutes h tv) = (hh, mi)
    /\ (selectedHour s', selectedMinute s') = (hh, mi)
    /\ deadlineTime s' = time_string hh mi
    /\ form s' = form s.
Proof.
  intros Hvd Hvt Hz Hdl. cbv zeta.
  rewrite (syncDeadline_valid h y mo d hh mi r s Hvd Hvt Hz Hdl).
  eexists. split; [reflexivity|].
  destruct (time_of_day_fields (DayFromYear y + DaysBeforeMonth y (mo - 1) + d - 1)
              hh mi 0) as [Hhh [Hmi Ht]]; try lia; [apply Hvt ..|].
  destruct Hvd as [Hy [Hmo Hd]].
  unfold getFullYear, getMonth, getDate, getHours, getMinutes, LocalTime.
  replace (_ - LocalTZA h + LocalTZA h)
    with ((DayFromYear y + DaysBeforeMonth y (mo - 1) + d - 1) * msPerDay
          + MakeTime hh mi 0 0) by lia.
  destruct (civil_of_day y (mo - 1) d (MakeTime hh mi 0 0)) as [H1 [H2 H3]];
    try lia.
  rewrite H1, H2, H3, Hhh, Hmi. repeat split.
Qed.

Lemma syncDeadline_cursor_and_time_witness :
  let h := bst 0 in
  let r := updateDeadline "2024-06-15" "00:30" (initial h) in
  valid_date 2024 6 15 /\ valid_time 0 30
  /\ - msPerDay <= LocalTZA h <= msPerDay
  /\ deadline (form r)
     = (date_string 2024 6 15 ++ "T" ++ time_string 0 30 ++ ":00")%string
  /\ exists tv, calendarDate (syncDeadline h r r) = Some tv
       /\ (getFullYear h tv, getMonth h tv, getDate h tv) = (2024, 6 - 1, 15)
       /\ (getHours h tv, getMinutes h tv) = (0, 30)
       /\ (selectedHour (syncDeadline h r r), selectedMinute (syncDeadline h r r))
          = (0, 30)
       /\ deadlineTime (syncDeadline h r r) = time_string 0 30
       /\ form (syncDeadline h r r) = form r.
Proof.
  cbv zeta.
  assert (Hvd : valid_date 2024 6 15) by (unfold valid_date; simpl; lia).
  assert (Hvt : valid_time 0 30) by (unfold valid_time; lia).
  assert (Hz : - msPerDay <= LocalTZA (bst 0) <= msPerDay) by (simpl; unfold msPerDay; lia).
  split; [exact Hvd|]. split; [exact Hvt|]. split; [exact Hz|].
  split; [reflexivity|].
  apply (syncDeadline_cursor_and_time (bst 0) 2024 6 15 0 30
           (updateDeadline "2024-06-15" "00:30" (initial (bst 0)))
           (updateDeadline "2024-06-15" "00:30" (initial (bst 0))) Hvd Hvt Hz).
  reflexivity.
Defined.

Lemma syncTimePicker_settled (y mo d hh mi : Z) (r s : State) :
  settled y mo d hh mi s -> settled y mo d hh mi (syncTimePicker r s).
Proof.
  unfold settled. rewrite syncTimePicker_form, syncTimePicker_deadlineTime.
  intros [H1 H2]. split; [|exact H2].
  unfold syncTimePicker.
  destruct (truthy _); [|exact H1].
  destruct (Number_at _ 0); [|exact H1].
  destruct (Number_at _ 1); exact H1.
Qed.

Lemma runEffects_settled (h : Host) (y mo d hh mi : Z) (p : option State) (s : State) :
  valid_date y mo d -> valid_time hh mi ->
  0 <= MakeTime hh mi 0 0 - LocalTZA h < msPerDay ->
  settled y mo d hh mi s -> settled y mo d hh mi (runEffects h p s).
Proof.
  intros Hvd Hvt Hz [Hd [Ht Hdl]].
  destruct (time_of_day_fields 0 hh mi 0) as [_ [_ Hr]]; try lia; [apply Hvt ..|].
  assert (Hsync : settled y mo d hh mi (syncDeadline h s s)).
  { rewrite (syncDeadline_valid h y mo d hh mi s s Hvd Hvt ltac:(lia) Hdl).
    unfold settled.
    cbn [setSelectedMinute setSelectedHour setDeadlineTime setDeadlineDate
         setCalendarDate deadlineDate deadlineTime form].
    split; [|split; [reflexivity | exact Hdl]].
    rewrite (toISOString_date _ y (mo - 1) d).
    - now replace (mo - 1 + 1) with mo by lia.
    - destruct Hvd as [Hy [Hmo Hdd]].
      replace (_ + MakeTime hh mi 0 0 - LocalTZA h)
        with ((DayFromYear y + DaysBeforeMonth y (mo - 1) + d - 1) * msPerDay
              + (MakeTime hh mi 0 0 - LocalTZA h)) by lia.
      apply civil_of_day; lia.
    - apply Hvd. }
  unfold runEffects.
  destruct (changed p s (fun s0 => deadline (form s0))),
    (changed p s deadlineTime);
    try apply syncTimePicker_settled; try assumption.
  all: now repeat split.
Qed.

(** X11.  In a zone with a constant offset (no clock changes; UTC is one),
    where the local time of day, moved to UTC, stays on the same day,
    fragments and deadline that name a valid date and time stay as they are
    through any number of effect commits, so the agreement of deadline and
    fragments survives the effects. *)
Theorem settled_fragments_stable (h : Host) (y mo d hh mi : Z) (n : nat)
    (p : option State) (s : State) :
  valid_date y mo d -> valid_time hh mi ->
  0 <= MakeTime hh mi 0 0 - LocalTZA h < msPerDay ->
  settled y mo d hh mi s ->
  settled y mo d hh mi (commits h n p s) /\ agree (commits h n p s).
Proof.
  intros Hvd Hvt Hz Hs.
  assert (Hst : settled y mo d hh mi (commits h n p s)).
  { revert p s Hs. induction n as [|n IH]; intros p s Hs; simpl; [exact Hs|].
    apply IH. now apply runEffects_settled. }
  split; [exact Hst|].
  destruct Hst as [Hd [Ht Hdl]]. unfold agree. rewrite Hd, Ht, Hdl.
  repeat split; intros H1 H2; try reflexivity.
  - exfalso. apply (proj1 (truthy_true _) (time_string_truthy hh mi)), H2.
  - exfalso. apply (proj1 (truthy_true _) (time_string_truthy hh mi)), H2.
Qed.

Lemma settled_fragments_stable_witness :
  let s := handleTimeChange "18:30" (handleDateChange "2024-12-31" (initial (utc 0))) in
  valid_date 2024 12 31 /\ valid_time 18 30
  /\ 0 <= MakeTime 18 30 0 0 - LocalTZA (utc 0) < msPerDay
  /\ settled 2024 12 31 18 30 s
  /\ settled 2024 12 31 18 30 (commits (utc 0) 3 (Some (initial (utc 0))) s).
Proof.
  cbv zeta.
  assert (Hvd : valid_date 2024 12 31) by (unfold valid_date; simpl; lia).
  assert (Hvt : valid_time 18 30) by (unfold valid_time; lia).
  assert (Hz : 0 <= MakeTime 18 30 0 0 - LocalTZA (utc 0) < msPerDay)
    by (vm_compute; split; [discriminate | reflexivity]).
  assert (Hs : settled 2024 12 31 18 30
                 (handleTimeChange "18:30"
                    (handleDateChange "2024-12-31" (initial (utc 0)))))
    by (unfold settled; repeat split).
  split; [exact Hvd|]. split; [exact Hvt|]. split; [exact Hz|]. split; [exact Hs|].
  apply (settled_fragments_stable (utc 0) 2024 12 31 18 30 3
           (Some (initial (utc 0))) _ Hvd Hvt Hz Hs).
Defined.


(** X21.  In a zone with a constant offset east of Greenwich (no clock
    changes), a deadline whose time of day is earlier than the zone offset
    is read back with the day before in the date fragment (for a day 2 or
    later); the time fragment is still the deadline's. *)
Theorem syncDeadline_east_early_hours (h : Host) (y mo d hh mi : Z) (r s : State) :
  valid_date y mo d -> valid_time hh mi -> 2 <= d ->
  MakeTime hh mi 0 0 < LocalTZA h <= msPerDay ->
  deadline (form r) = (date_string y mo d ++ "T" ++ time_string hh mi ++ ":00")%string ->
  deadlineDate (syncDeadline h r s) = date_string y mo (d - 1)
  /\ deadlineTime (syncDeadline h r s) = time_string hh mi.
Proof.
  intros Hvd Hvt Hd2 Hz Hdl.
  destruct (time_of_day_fields 0 hh mi 0) as [_ [_ Ht]]; try lia; [apply Hvt ..|].
  rewrite (syncDeadline_valid h y mo d hh mi r s Hvd Hvt ltac:(lia) Hdl).
  cbn [setSelectedMinute setSelectedHour setDeadlineTime setDeadlineDate
       deadlineDate deadlineTime].
  split; [|reflexivity].
  rewrite (toISOString_date _ y (mo - 1) (d - 1)).
  - now replace (mo - 1 + 1) with mo by lia.
  - destruct Hvd as [Hy [Hmo Hdd]].
    replace (_ + MakeTime hh mi 0 0 - LocalTZA h)
      with ((DayFromYear y + DaysBeforeMonth y (mo - 1) + (d - 1) - 1) * msPerDay
            + (msPerDay + MakeTime hh mi 0 0 - LocalTZA h)) by lia.
    apply civil_of_day; lia.
  - apply Hvd.
Qed.

Lemma syncDeadline_east_early_hours_witness :
  let h := bst 0 in
  let r := updateDeadline "2024-06-15" "00:30" (initial h) in
  valid_date 2024 6 15 /\ valid_time 0 30 /\ 2 <= 15
  /\ MakeTime 0 30 0 0 < LocalTZA h <= msPerDay
  /\ deadline (form r)
     = (date_string 2024 6 15 ++ "T" ++ time_string 0 30 ++ ":00")%string
  /\ deadlineDate (syncDeadline h r r) = date_string 2024 6 (15 - 1).
Proof.
  cbv zeta.
  assert (Hvd : valid_date 2024 6 15) by (unfold valid_date; simpl; lia).
  assert (Hvt : valid_time 0 30) by (unfold valid_time; lia).
  assert (Hz : MakeTime 0 30 0 0 < LocalTZA (bst 0) <= msPerDay)
    by (vm_compute; split; [reflexivity | discriminate]).
  split; [exact Hvd|]. split; [exact Hvt|]. split; [lia|]. split; [exact Hz|].
  split; [reflexivity|].
  apply (syncDeadline_east_early_hours (bst 0) 2024 6 15 0 30
           (updateDeadline "2024-06-15" "00:30" (initial (bst 0)))
           (updateDeadline "2024-06-15" "00:30" (initial (bst 0)))
           Hvd Hvt ltac:(lia) Hz eq_refl).
Defined.

(** X12.  In a zone with a constant offset at or west of Greenwich (no
    clock changes; UTC included), when the effect runs on the deadline of a
    date-only edit (a valid date, no time fragment) it fills the time
    fragment with 00:00, stages hour 0 and minute 0, and keeps the date
    fragment and the deadline: the midnight default becomes visible in the
    time field. *)
Theorem date_only_edit_fills_midnight (h : Host) (y mo d : Z) (s : State) :
  valid_date y mo d -> - msPerDay < LocalTZA h <= 0 ->
  deadlineTime s = "" ->
  let r := handleDateChange (date_string y mo d) s in
  let s' := syncDeadline h r r in
  deadline (form r) = (date_string y mo d ++ "T00:00:00")%string
  /\ deadlineTime r = ""
  /\ deadlineTime s' = "00:00"
  /\ deadlineDate s' = date_string y mo d
  /\ (selectedHour s', selectedMinute s') = (0, 0)
  /\ deadline (form s') = deadline (form r).
Proof.
  intros Hvd Hz Ht. cbv zeta.
  assert (Hdl : deadline (form (handleDateChange (date_string y mo d) s))
                = (date_string y mo d ++ "T" ++ time_string 0 0 ++ ":00")%string).
  { unfold handleDateChange. rewrite updateDeadline_deadline.
    cbn [setDeadlineDate deadlineTime]. rewrite Ht, date_string_truthy.
    reflexivity. }
  assert (Hvt : valid_time 0 0) by (unfold valid_time; lia).
  split; [exact Hdl|].
  split; [unfold handleDateChange; rewrite updateDeadline_time; exact Ht|].
  rewrite (syncDeadline_valid h y mo d 0 0 _ _ Hvd Hvt ltac:(lia) Hdl).
  cbn [setSelectedMinute setSelectedHour setDeadlineTime setDeadlineDate
       setCalendarDate deadlineDate deadlineTime form selectedHour selectedMinute].
  repeat split.
  rewrite (toISOString_date _ y (mo - 1) d).
  - now replace (mo - 1 + 1) with mo by lia.
  - destruct Hvd as [Hy [Hmo Hdd]].
    replace (_ + MakeTime 0 0 0 0 - LocalTZA h)
      with ((DayFromYear y + DaysBeforeMonth y (mo - 1) + d - 1) * msPerDay
            + (- LocalTZA h)) by (unfold MakeTime; lia).
    apply civil_of_day; lia.
  - apply Hvd.
Qed.

Lemma date_only_edit_fills_midnight_witness :
  let r := handleDateChange (date_string 2024 12 31) (initial (utc 0)) in
  valid_date 2024 12 31 /\ - msPerDay < LocalTZA (utc 0) <= 0
  /\ deadlineTime (initial (utc 0)) = ""
  /\ deadlineTime (syncDeadline (utc 0) r r) = "00:00".
Proof.
  cbv zeta.
  assert (Hvd : valid_date 2024 12 31) by (unfold valid_date; simpl; lia).
  assert (Hz : - msPerDay < LocalTZA (utc 0) <= 0) by (simpl; unfold msPerDay; lia).
  split; [exact Hvd|]. split; [exact Hz|]. split; [reflexivity|].
  apply (date_only_edit_fills_midnight (utc 0) 2024 12 31 (initial (utc 0)) Hvd Hz
           eq_refl).
Defined.

(** *** The calendar click, zone by zone *)

(** X13.  East of Greenwich (offset of at most a day) the calendar click on
    day 2 or later of a month writes the day before the one clicked into the
    date fragment. *)
Theorem handleDateSelect_east_of_Greenwich
    (h : Host) (day month year : Z) (s : State) :
  0 < LocalTZA h <= msPerDay ->
  100 <= year <= 9999 -> 0 <= month <= 11 ->
  2 <= day <= DaysInMonth year month ->
  deadlineDate (handleDateSelect h day month year s)
    = date_string year (month + 1) (day - 1)
  /\ showCalendar (handleDateSelect h day month year s) = false.
Proof.
  intros Hz Hy Hm Hd. unfold handleDateSelect.
  pose proof (DaysInMonth_range year month) as Hr.
  rewrite new_Date_ymd_value by lia.
  assert (Hc : civil year month (day - 1)
            ((DayFromYear year + DaysBeforeMonth year month + day - 1) * msPerDay
             - LocalTZA h)).
  { replace (_ * msPerDay - LocalTZA h)
      with ((DayFromYear year + DaysBeforeMonth year month + (day - 1) - 1) * msPerDay
            + (msPerDay - LocalTZA h)) by lia.
    apply civil_of_day; lia. }
  rewrite (toISOString_date _ _ _ _ Hc) by lia.
  cbn [setShowCalendar showCalendar deadlineDate].
  now rewrite updateDeadline_date.
Qed.

Lemma handleDateSelect_east_of_Greenwich_witness :
  0 < LocalTZA (bst 0) <= msPerDay /\ 100 <= 2024 <= 9999 /\ 0 <= 5 <= 11
  /\ 2 <= 15 <= DaysInMonth 2024 5
  /\ deadlineDate (handleDateSelect (bst 0) 15 5 2024 (initial (bst 0)))
     = date_string 2024 (5 + 1) (15 - 1).
Proof.
  assert (Hz : 0 < LocalTZA (bst 0) <= msPerDay) by (simpl; unfold msPerDay; lia).
  assert (Hd : 2 <= 15 <= DaysInMonth 2024 5) by (simpl; lia).
  split; [exact Hz|]. split; [lia|]. split; [lia|]. split; [exact Hd|].
  apply (handleDateSelect_east_of_Greenwich (bst 0) 15 5 2024 (initial (bst 0)) Hz);
    [lia | lia | exact Hd].
Defined.

Lemma In_days_of (k n day : Z) :
  In (Some day) (days_of (Some k) (Some n)) -> 1 <= day <= n.
Proof.
  unfold days_of. rewrite in_app_iff. intros [H | H].
  - apply repeat_spec in H. discriminate.
  - apply in_map_iff in H. destruct H as [x [Hx Hin]].
    apply in_seq in Hin. injection Hx as <-. lia.
Qed.

(** X14.  At or west of Greenwich, with the cursor in a year 100..9999, the
    click on any day cell the grid offers writes exactly that day of the
    visible month and year into the date fragment, recomputes the deadline
    with the time fragment or 00:00, and closes the calendar. *)
Theorem clickDay_on_grid_cell (h : Host) (day c : Z) (s : State) :
  - msPerDay < LocalTZA h <= 0 ->
  calendarDate s = Some c ->
  100 <= getFullYear h c <= 9999 ->
  In (Some day) (days h s) ->
  let s' := clickDay h day s in
  let date := date_string (getFullYear h c) (getMonth h c + 1) day in
  deadlineDate s' = date
  /\ deadline (form s')
     = (date ++ "T" ++ or_else (deadlineTime s) "00:00" ++ ":00")%string
  /\ showCalendar s' = false.
Proof.
  intros Hz Hc Hy Hin. cbv zeta.
  destruct (calendar_month_values h c ltac:(lia) ltac:(lia)) as [Hn [Hk _]].
  unfold days in Hin. rewrite Hc, Hn, Hk in Hin.
  apply In_days_of in Hin.
  unfold clickDay. rewrite Hc.
  pose proof (MonthFromTime_range (LocalTime h c)) as Hm.
  destruct (handleDateSelect_west_of_Greenwich h day (getMonth h c)
              (getFullYear h c) s Hz Hy Hm Hin) as [H1 [H2 [_ H4]]].
  auto.
Qed.

Lemma clickDay_on_grid_cell_witness :
  let h := utc 1718407800000 in
  - msPerDay < LocalTZA h <= 0
  /\ calendarDate (initial h) = Some 1718407800000
  /\ 100 <= getFullYear h 1718407800000 <= 9999
  /\ In (Some 15) (days h (initial h))
  /\ deadlineDate (clickDay h 15 (initial h)) = "2024-06-15".
Proof.
  cbv zeta.
  assert (Hz : - msPerDay < LocalTZA (utc 1718407800000) <= 0)
    by (simpl; unfold msPerDay; lia).
  assert (Hy : 100 <= getFullYear (utc 1718407800000) 1718407800000 <= 9999)
    by (vm_compute; split; discriminate).
  assert (Hin : In (Some 15) (days (utc 1718407800000) (initial (utc 1718407800000))))
    by (vm_compute; do 20 right; left; reflexivity).
  split; [exact Hz|]. split; [reflexivity|]. split; [exact Hy|]. split; [exact Hin|].
  apply (clickDay_on_grid_cell (utc 1718407800000) 15 1718407800000
           (initial (utc 1718407800000)) Hz eq_refl Hy Hin).
Defined.


(** *** Month navigation *)

(** The day number of a time value from its own civil fields. *)
Lemma Day_from_fields (t : Z) :
  Day t = DayFromYear (YearFromTime t)
          + DaysBeforeMonth (YearFromTime t) (MonthFromTime t)
          + DateFromTime t - 1.
Proof.
  unfold DateFromTime, MonthFromTime, DaysBeforeMonth, InLeapYear, DayWithinYear.
  set (l := if DaysInYear (YearFromTime t) =? 366 then 1 else 0).
  set (dy := Day t - DayFromYear (YearFromTime t)).
  assert (Hd : Day t = DayFromYear (YearFromTime t) + dy) by (subst dy; lia).
  rewrite Hd at 1. clearbody dy l.
  repeat match goal with
         | |- context [?a <? ?b] => destruct (Z.ltb_spec a b)
         end; cbv iota; lia.
Qed.

Lemma time_from_fields (t : Z) :
  t = (DayFromYear (YearFromTime t)
       + DaysBeforeMonth (YearFromTime t) (MonthFromTime t)
       + DateFromTime t - 1) * msPerDay + TimeWithinDay t.
Proof.
  rewrite <- Day_from_fields. unfold Day, TimeWithinDay, msPerDay.
  Z.div_mod_to_equations. lia.
Qed.

Lemma DateFromTime_le_31 (t : Z) : DateFromTime t <= 31.
Proof.
  pose proof (YearFromDay_spec (Day t)) as Hs.
  rewrite DayFromYear_succ in Hs.
  pose proof (DaysInYear_cases (YearFromTime t)) as Hy.
  unfold DateFromTime, MonthFromTime, InLeapYear, DayWithinYear.
  fold (YearFromTime t) in Hs.
  set (dy := Day t - DayFromYear (YearFromTime t)).
  assert (Hd : 0 <= dy < DaysInYear (YearFromTime t)) by (subst dy; lia).
  clearbody dy.
  destruct Hy as [Hy | Hy]; rewrite Hy in *; cbn [Z.eqb Pos.eqb];
  repeat match goal with
         | |- context [?a <? ?b] => destruct (Z.ltb_spec a b)
         end; cbv iota; lia.
Qed.

(** The time value [setMonth] produces, away from the ends of the time
    range. *)
Lemma setMonth_value (h : Host) (tv m : Z) :
  - msPerDay <= LocalTZA h <= msPerDay ->
  -250000 <= getFullYear h tv <= 250000 -> -1 <= m <= 12 ->
  let t := LocalTime h tv in
  setMonth h tv m =
    Some ((DayFromYear (YearFromTime t + m / 12)
           + DaysBeforeMonth (YearFromTime t + m / 12) (m mod 12)
           + DateFromTime t - 1) * msPerDay + TimeWithinDay t - LocalTZA h).
Proof.
  unfold getFullYear, setMonth. intros Hz Hy Hm. cbv zeta.
  set (t := LocalTime h tv) in *.
  rewrite MakeDay_value by lia.
  cbn [MakeDate option_map]. unfold UTC.
  assert (Hq : -1 <= m / 12 <= 1) by (Z.div_mod_to_equations; lia).
  pose proof (DayFromYear_bound (YearFromTime t + m / 12) ltac:(lia)).
  pose proof (DaysBeforeMonth_bound (YearFromTime t + m / 12) (m mod 12)).
  pose proof (DateFromTime_pos t). pose proof (DateFromTime_le_31 t).
  pose proof (TimeWithinDay_range t).
  apply TimeClip_small. unfold msPerDay in *. lia.
Qed.

(** X15.  In a zone with a constant offset (no clock changes), from a
    cursor on day 28 or earlier, next-month followed by previous-month (and
    previous followed by next) brings the cursor back to the very same
    instant. *)
Theorem navigateMonth_there_and_back (h : Host) (tv : Z) :
  - msPerDay <= LocalTZA h <= msPerDay ->
  -249000 <= getFullYear h tv <= 249000 -> getDate h tv <= 28 ->
  navigateMonth_date h prev (navigateMonth_date h next (Some tv)) = Some tv
  /\ navigateMonth_date h next (navigateMonth_date h prev (Some tv)) = Some tv.
Proof.
  intros Hz Hy Hd.
  pose proof (MonthFromTime_range (LocalTime h tv)) as Hm.
  pose proof (DateFromTime_pos (LocalTime h tv)) as Hp.
  pose proof (TimeWithinDay_range (LocalTime h tv)) as Ht.
  pose proof (time_from_fields (LocalTime h tv)) as Hfields.
  unfold getFullYear, getDate in Hy, Hd.
  assert (Hback : forall step, step = 1 \/ step = -1 ->
    exists tv', setMonth h tv (getMonth h tv + step) = Some tv'
      /\ setMonth h tv' (getMonth h tv' - step) = Some tv).
  { intros step Hstep. unfold getMonth.
    set (t := LocalTime h tv) in *.
    set (y := YearFromTime t) in *. set (m := MonthFromTime t) in *.
    set (d := DateFromTime t) in *.
    rewrite setMonth_value by (unfold getFullYear; fold t y; lia).
    fold t y d. eexists. split; [reflexivity|].
    set (y' := y + (m + step) / 12). set (m' := (m + step) mod 12).
    assert (Hm' : 0 <= m' <= 11) by (subst m'; Z.div_mod_to_equations; lia).
    assert (Hy' : y - 1 <= y' <= y + 1) by (subst y'; Z.div_mod_to_equations; lia).
    pose proof (DaysInMonth_range y' m') as Hr.
    destruct (civil_of_day y' m' d (TimeWithinDay t)) as [H1 [H2 H3]]; try lia.
    assert (Hloc : LocalTime h ((DayFromYear y' + DaysBeforeMonth y' m' + d - 1)
                                * msPerDay + TimeWithinDay t - LocalTZA h)
                   = (DayFromYear y' + DaysBeforeMonth y' m' + d - 1) * msPerDay
                     + TimeWithinDay t) by (unfold LocalTime; lia).
    rewrite setMonth_value;
      [ | lia | unfold getFullYear; rewrite Hloc, H1; lia
        | rewrite Hloc, H2; destruct Hstep; subst step; lia ].
    cbv zeta. rewrite Hloc, H1, H2, H3.
    rewrite TimeWithinDay_of_day_time by exact Ht.
    assert (Hyy : y' + (m' - step) / 12 = y /\ (m' - step) mod 12 = m)
      by (subst y' m'; destruct Hstep; subst step; Z.div_mod_to_equations; lia).
    destruct Hyy as [-> ->].
    f_equal. unfold LocalTime in t. fold y m d in Hfields. subst t. lia. }
  split.
  - cbn [navigateMonth_date].
    destruct (Hback 1 ltac:(auto)) as [tv' [-> H2]]. exact H2.
  - cbn [navigateMonth_date].
    destruct (Hback (-1) ltac:(auto)) as [tv' [H1 H2]].
    replace (getMonth h tv - 1) with (getMonth h tv + -1) by lia.
    rewrite H1. replace (getMonth h tv' + 1) with (getMonth h tv' - -1) by lia.
    exact H2.
Qed.

Lemma navigateMonth_there_and_back_witness :
  let h := bst 0 in
  - msPerDay <= LocalTZA h <= msPerDay
  /\ -249000 <= getFullYear h 1718407800000 <= 249000
  /\ getDate h 1718407800000 <= 28
  /\ navigateMonth_date h prev (navigateMonth_date h next (Some 1718407800000))
     = Some 1718407800000.
Proof.
  cbv zeta.
  assert (Hz : - msPerDay <= LocalTZA (bst 0) <= msPerDay)
    by (simpl; unfold msPerDay; lia).
  assert (Hy : -249000 <= getFullYear (bst 0) 1718407800000 <= 249000)
    by (vm_compute; split; discriminate).
  assert (Hd : getDate (bst 0) 1718407800000 <= 28) by (vm_compute; discriminate).
  split; [exact Hz|]. split; [exact Hy|]. split; [exact Hd|].
  apply (navigateMonth_there_and_back (bst 0) 1718407800000 Hz Hy Hd).
Defined.


(** *** The selected-day highlight *)

Lemma parse_date_fields_date_string (y mo d : Z) :
  valid_date y mo d -> parse_date_fields (date_string y mo d) = Some (y, mo, d).
Proof.
  intros [Hy [Hmo Hd]].
  pose proof (DaysInMonth_range y (mo - 1)) as Hr.
  unfold parse_date_fields, date_string.
  rewrite take_digits_fixed by (simpl; lia). cbv iota. rewrite expect_sep.
  rewrite take_digits_fixed by (simpl; lia). cbv iota. rewrite expect_sep.
  rewrite <- (string_app_nil_r (digits_fixed 2 d)).
  rewrite take_digits_fixed by (simpl; lia).
  reflexivity.
Qed.

(** [new Date(deadlineDate)] on a valid date fragment: midnight UTC of that
    day, whatever the zone. *)
Lemma new_Date_string_date (h : Host) (y mo d : Z) :
  valid_date y mo d ->
  new_Date_string h (date_string y mo d)
  = Some ((DayFromYear y + DaysBeforeMonth y (mo - 1) + d - 1) * msPerDay).
Proof.
  intros Hvd. unfold new_Date_string.
  rewrite (parse_date_fields_date_string _ _ _ Hvd).
  destruct Hvd as [Hy [Hmo Hd]].
  replace ((1 <=? mo) && (mo <=? 12) && (1 <=? d) && (d <=? DaysInMonth y (mo - 1)))
    with true
    by (symmetry; repeat (apply andb_true_iff; split); apply Z.leb_le; lia).
  rewrite MakeDay_value by lia.
  destruct (div12_small (mo - 1) ltac:(lia)) as [-> ->]. rewrite Z.add_0_r.
  cbn [MakeDate]. unfold MakeTime.
  pose proof (DayFromYear_bound y ltac:(lia)) as Hb.
  pose proof (DaysBeforeMonth_bound y (mo - 1)) as Hb'.
  pose proof (DaysInMonth_range y (mo - 1)) as Hr.
  rewrite TimeClip_small
    by (unfold msPerDay, msPerHour, msPerMinute, msPerSecond; lia).
  f_equal. lia.
Qed.

(** The highlight for a date fragment whose UTC midnight falls on local day
    [d'] of the fragment's month. *)
Lemma isSelected_fields (h : Host) (y mn d' t day c : Z) (s : State) :
  deadlineDate s <> "" ->
  new_Date_string h (deadlineDate s) = Some t ->
  civil y mn d' (LocalTime h t) ->
  calendarDate s = Some c -> day <> 0 ->
  isSelected h (Some day) s =
    (d' =? day) && (mn =? getMonth h c) && (y =? getFullYear h c).
Proof.
  intros Hne Hparse [H1 [H2 H3]] Hc Hday. unfold isSelected.
  rewrite Hparse, Hc. apply truthy_true in Hne. rewrite Hne.
  replace (day =? 0) with false by (symmetry; apply Z.eqb_neq; exact Hday).
  unfold getDate, getMonth, getFullYear at 1. rewrite H1, H2, H3. reflexivity.
Qed.

(** X16.  At or east of Greenwich (offset under a day) the grid highlights
    as selected exactly the cell of the date fragment's day, and only while
    the cursor shows the fragment's month and year. *)
Theorem isSelected_east_of_Greenwich (h : Host) (y mo d day c : Z) (s : State) :
  0 <= LocalTZA h < msPerDay -> valid_date y mo d ->
  deadlineDate s = date_string y mo d ->
  calendarDate s = Some c -> day <> 0 ->
  isSelected h (Some day) s =
    (d =? day) && (mo - 1 =? getMonth h c) && (y =? getFullYear h c).
Proof.
  intros Hz Hvd Hd Hc Hday.
  apply (isSelected_fields h y (mo - 1) d
           ((DayFromYear y + DaysBeforeMonth y (mo - 1) + d - 1) * msPerDay));
    try assumption.
  - rewrite Hd. apply truthy_true, date_string_truthy.
  - rewrite Hd. now apply new_Date_string_date.
  - destruct Hvd as [Hy [Hmo Hdd]]. unfold LocalTime. apply civil_of_day; lia.
Qed.

Lemma isSelected_east_of_Greenwich_witness :
  let h := bst 1718407800000 in
  let s := handleDateChange "2024-06-15" (initial h) in
  0 <= LocalTZA h < msPerDay /\ valid_date 2024 6 15
  /\ deadlineDate s = date_string 2024 6 15
  /\ calendarDate s = Some 1718407800000 /\ 15 <> 0
  /\ isSelected h (Some 15) s = true.
Proof.
  cbv zeta.
  assert (Hz : 0 <= LocalTZA (bst 1718407800000) < msPerDay)
    by (simpl; unfold msPerDay; lia).
  assert (Hvd : valid_date 2024 6 15) by (unfold valid_date; simpl; lia).
  assert (Hne : 15 <> 0) by lia.
  split; [exact Hz|]. split; [exact Hvd|]. split; [reflexivity|].
  split; [reflexivity|]. split; [exact Hne|].
  rewrite (isSelected_east_of_Greenwich (bst 1718407800000) 2024 6 15 15
             1718407800000
             (handleDateChange "2024-06-15" (initial (bst 1718407800000)))
             Hz Hvd eq_refl eq_refl Hne).
  vm_compute. reflexivity.
Defined.

(** X17.  West of Greenwich (offset of at most a day) the highlight sits on
    the day before the date fragment's day: for a fragment on day 2 or later
    the cell marked selected is [d - 1]. *)
Theorem isSelected_west_of_Greenwich (h : Host) (y mo d day c : Z) (s : State) :
  - msPerDay <= LocalTZA h < 0 -> valid_date y mo d -> 2 <= d ->
  deadlineDate s = date_string y mo d ->
  calendarDate s = Some c -> day <> 0 ->
  isSelected h (Some day) s =
    (d - 1 =? day) && (mo - 1 =? getMonth h c) && (y =? getFullYear h c).
Proof.
  intros Hz Hvd Hd2 Hd Hc Hday.
  apply (isSelected_fields h y (mo - 1) (d - 1)
           ((DayFromYear y + DaysBeforeMonth y (mo - 1) + d - 1) * msPerDay));
    try assumption.
  - rewrite Hd. apply truthy_true, date_string_truthy.
  - rewrite Hd. now apply new_Date_string_date.
  - destruct Hvd as [Hy [Hmo Hdd]]. unfold LocalTime.
    replace (_ * msPerDay + LocalTZA h)
      with ((DayFromYear y + DaysBeforeMonth y (mo - 1) + (d - 1) - 1) * msPerDay
            + (msPerDay + LocalTZA h)) by lia.
    apply civil_of_day; lia.
Qed.

Lemma isSelected_west_of_Greenwich_witness :
  let h := mkHost (-18000000) 1718407800000 (fun _ => None) in
  let s := handleDateChange "2024-06-15" (initial h) in
  - msPerDay <= LocalTZA h < 0 /\ valid_date 2024 6 15 /\ 2 <= 15
  /\ deadlineDate s = date_string 2024 6 15
  /\ calendarDate s = Some 1718407800000 /\ 14 <> 0
  /\ isSelected h (Some 14) s = true.
Proof.
  cbv zeta.
  assert (Hz : - msPerDay <= LocalTZA (mkHost (-18000000) 1718407800000
                                         (fun _ => None)) < 0)
    by (simpl; unfold msPerDay; lia).
  assert (Hvd : valid_date 2024 6 15) by (unfold valid_date; simpl; lia).
  assert (Hne : 14 <> 0) by lia.
  split; [exact Hz|]. split; [exact Hvd|]. split; [lia|]. split; [reflexivity|].
  split; [reflexivity|]. split; [exact Hne|].
  rewrite (isSelected_west_of_Greenwich
             (mkHost (-18000000) 1718407800000 (fun _ => None)) 2024 6 15 14
             1718407800000
             (handleDateChange "2024-06-15"
                (initial (mkHost (-18000000) 1718407800000 (fun _ => None))))
             Hz Hvd ltac:(lia) eq_refl eq_refl Hne).
  vm_compute. reflexivity.
Defined.

(** On the first render the cursor is the current instant, and the grid
    marks as today exactly the cell of the current local day. *)
Remark isToday_initial (h : Host) (day : Z) :
  isToday h (Some day) (initial h) = (day =? getDate h (now h)).
Proof.
  unfold isToday, initial, new_Date_now. cbn [calendarDate].
  now rewrite !Z.eqb_refl, !andb_true_r.
Qed.

(** *** Witnesses for the zone and cursor theorems *)

Lemma days_grid_witness :
  let h := bst 1718407800000 in
  calendarDate (initial h) = Some 1718407800000
  /\ - msPerDay <= LocalTZA h <= msPerDay
  /\ 100 <= getFullYear h 1718407800000 <= 250000
  /\ days h (initial h)
     = (repeat None 6 ++ map (fun d => Some (Z.of_nat d)) (seq 1 30))%list.
Proof.
  cbv zeta.
  assert (Hz : - msPerDay <= LocalTZA (bst 1718407800000) <= msPerDay)
    by (simpl; unfold msPerDay; lia).
  assert (Hy : 100 <= getFullYear (bst 1718407800000) 1718407800000 <= 250000)
    by (vm_compute; split; discriminate).
  split; [reflexivity|]. split; [exact Hz|]. split; [exact Hy|].
  rewrite (proj1 (days_grid (bst 1718407800000) (initial (bst 1718407800000))
                    1718407800000 eq_refl Hz Hy)).
  vm_compute. reflexivity.
Defined.


Lemma selectToday_same_UTC_day_witness :
  let h := utc 1718407800000 in
  Day (now h) = Day (LocalTime h (now h))
  /\ 0 <= getFullYear h (now h) <= 9999
  /\ deadlineDate (selectToday h (initial h)) = "2024-06-14"
  /\ deadlineTime (selectToday h (initial h)) = "23:30".
Proof.
  cbv zeta.
  assert (Hy : 0 <= getFullYear (utc 1718407800000) (now (utc 1718407800000)) <= 9999)
    by (vm_compute; split; discriminate).
  split; [reflexivity|]. split; [exact Hy|].
  destruct (selectToday_same_UTC_day (utc 1718407800000)
              (initial (utc 1718407800000)) eq_refl Hy) as [H1 [H2 _]].
  split; [rewrite H1 | rewrite H2]; vm_compute; reflexivity.
Defined.

End AppExtra.
